(** * Favorite-products synchronizer: the route handlers and their codec

    A shallow embedding of the route handlers that keep a customer's list of
    favorite products in one metafield of the remote store, and of the
    string operations they are built from, followed by the properties of
    the natural-language specification that concern them.

    The handlers are
    - the `action` of the update route, which adds handles to the list (the
      module that logs as `[update-metafields]`, second in
      `app/routes/api.update-metafields-temp.jsx`);
    - the `action` of the remove route, which removes one handle (the module
      that logs as `[remove-metafields]`);
    - the `loader` of `app/routes/api.get-metafields.jsx`, the diagnostic
      read of all metafields;
    - the `action` of the `-temp` variant of the update route, which only
      reports the handle it was sent (the module that logs as
      `[update-metafields-temp]`, first in
      `app/routes/api.update-metafields-temp.jsx`).
    The `loader`s of the update and remove routes, which only report that
    the endpoint works, are left out.

    Conventions of the embedding:
    - a JavaScript string is a [string]: a sequence of code units, of which
      the model covers the 256 lowest ones;
    - the JSON values exchanged are typed after the shapes the handlers
      read: the body of a request, and the body of a GraphQL response with
      the fields the queries and mutations select; a field read through
      `?.` or tested for truthiness is an [option];
    - `console.log` and the CORS headers, which are the same constant on
      every response, are left out;
    - the remote store and the session storage are an interface over an
      abstract world, and every `fetch` is recorded in a trace with the way
      it settled;
    - the message of a `TypeError` is the engine's: the one that a handler
      can run into is a parameter, of the platform or of the `action`. *)

From Stdlib Require Import String Ascii List Bool Arith Lia DecimalString.
Import ListNotations.
Open Scope string_scope.
Open Scope list_scope.

(** ** JavaScript string and array primitives used by the handlers *)

Module Js.

(** Truthiness of a string: `Boolean(s)`. *)
Definition truthy (s : string) : bool := negb (s =? "").

(** The white space and line terminator code units that
    `String.prototype.trim` removes (TAB, LF, VT, FF, CR, SP, NBSP). *)
Definition is_white_space (c : ascii) : bool :=
  existsb (Ascii.eqb c) (map ascii_of_nat [9; 10; 11; 12; 13; 32; 160]).

(** The double quote (code unit 34) and the single quote (code unit 39). *)
Definition DQ : ascii := ascii_of_nat 34.
Definition SQ : ascii := ascii_of_nat 39.

(** The character class of the pattern: a double or a single quote. *)
Definition is_quote (c : ascii) : bool := Ascii.eqb c DQ || Ascii.eqb c SQ.

Fixpoint trimStart (s : string) : string :=
  match s with
  | String c s' => if is_white_space c then trimStart s' else s
  | EmptyString => EmptyString
  end.

Fixpoint trimEnd (s : string) : string :=
  match s with
  | EmptyString => EmptyString
  | String c s' =>
      match trimEnd s' with
      | EmptyString => if is_white_space c then EmptyString else String c EmptyString
      | t => String c t
      end
  end.

(** `s.trim()` *)
Definition trim (s : string) : string := trimEnd (trimStart s).

(** The first alternative of the pattern: a quote at index 0. *)
Definition strip_leading_quote (s : string) : string :=
  match s with
  | String c s' => if is_quote c then s' else s
  | EmptyString => EmptyString
  end.

(** The second alternative of the pattern: a quote that is the last code
    unit. *)
Fixpoint strip_trailing_quote (s : string) : string :=
  match s with
  | EmptyString => EmptyString
  | String c EmptyString => if is_quote c then EmptyString else s
  | String c s' => String c (strip_trailing_quote s')
  end.

(** `s.replace(PATTERN, '')` with the pattern of the handlers: a quote at
    the start of the string or a quote at its end, global. The scan tries
    index 0 first, where only the first alternative can match, and resumes
    after that match, so the trailing quote is looked for in what is left of
    the string. *)
Definition strip_quotes (s : string) : string :=
  strip_trailing_quote (strip_leading_quote s).

(** `s.split(sep)` for a separator of one code unit; the result is never
    the empty array: `"".split("\n")` is `[""]`. *)
Fixpoint split (sep : ascii) (s : string) : list string :=
  match s with
  | EmptyString => [EmptyString]
  | String c s' =>
      if Ascii.eqb c sep then EmptyString :: split sep s'
      else match split sep s' with
           | h :: t => String c h :: t
           | [] => [String c EmptyString]
           end
  end.

(** `a.join(sep)` *)
Definition join (sep : string) (a : list string) : string := String.concat sep a.

(** `hay.includes(needle)` *)
Fixpoint includes (hay needle : string) : bool :=
  String.prefix needle hay ||
  match hay with
  | EmptyString => false
  | String _ hay' => includes hay' needle
  end.

(** `a.includes(x)` on an array of strings. *)
Definition array_includes (a : list string) (x : string) : bool :=
  existsb (String.eqb x) a.

(** `new Set(a)`: the constructor adds the elements in order; `add` leaves
    the set alone when the value is already there and appends it otherwise.
    A set is kept as the list of its values in insertion order, which is the
    order `Array.from` reads them in. *)
Definition Set_add (s : list string) (x : string) : list string :=
  if array_includes s x then s else s ++ [x].

Definition Set_from (a : list string) : list string := fold_left Set_add a [].

(** `${n}` for a non-negative integer. *)
Definition of_nat (n : nat) : string := NilEmpty.string_of_uint (Nat.to_uint n).

Definition LF : ascii := ascii_of_nat 10.
Definition LFs : string := String LF EmptyString.

End Js.

(** ** The codec *)

(** `v.trim().replace(PATTERN, '')`, the callback of every `map` that
    cleans one line. *)
Definition clean (v : string) : string := Js.strip_quotes (Js.trim v).

(** `value.split("\n").map((v) => v.trim().replace(...)).filter(Boolean)` *)
Definition parse_lines (value : string) : list string :=
  filter Js.truthy (map clean (Js.split Js.LF value)).

(** `handles.join("\n")` *)
Definition encode (handles : list string) : string := Js.join Js.LFs handles.

(** ** Exceptions and completions *)

(** A thrown value: an `Error` with its `name` and `message`. What the
    handlers throw themselves, and what `fetch`, the parsers of a body and
    the session storage reject with, are such objects; a rejection with
    `null` or `undefined`, on which the `catch` of a handler would itself
    throw when it reads `error.message`, is not modelled. *)
Record Exn := { exn_name : string; exn_message : string }.

(** `new Error(message)` *)
Definition Error (message : string) : Exn :=
  {| exn_name := "Error"; exn_message := message |}.

(** `error.message || String(error)`: `String(error)` of an error with an
    empty message is its name. *)
Definition error_text (error : Exn) : string :=
  if Js.truthy (exn_message error) then exn_message error else exn_name error.

(** How the evaluation of an expression, or an awaited promise, ends. *)
Inductive Completion (A : Type) : Type :=
| Throw (e : Exn)
| Normal (a : A).
Arguments Throw {A} e.
Arguments Normal {A} a.

(** ** What the remote store sends: the body of a GraphQL response

    The records follow the selections of the queries and mutations of the
    handlers. A field read through `?.`, or tested for truthiness before it
    is used, is an [option]: [None] stands for `undefined` and `null`.
    The bodies are those of the GraphQL format, in which the top-level
    `errors` is an array; a body with anything else there, on which the
    `errors.find` of the handlers is not a function, is not modelled. *)

Module Gql.

(** An entry of the top-level `errors`; [code] is `extensions?.code`. *)
Record Error := { code : option string; message : string }.

Record Metafield := {
  id : string;
  namespace : option string;
  key : option string;
  value : string;
  type : option string;
  updatedAt : option string }.

Record UserError := { field : option (list string); ue_message : string }.

Record MetafieldsSetPayload := {
  metafields : option (list Metafield);
  set_userErrors : option (list UserError) }.

Record MetafieldDeletePayload := {
  deletedId : option string;
  delete_userErrors : option (list UserError) }.

Record Customer := {
  customer_id : option string;
  email : option string;
  firstName : option string;
  lastName : option string;
  edges : option (list Metafield);     (* metafields?.edges, each by its node *)
  metafield : option Metafield }.

Record Data := {
  customer : option Customer;
  metafieldsSet : option MetafieldsSetPayload;
  metafieldDelete : option MetafieldDeletePayload }.

Record Result := { errors : option (list Error); data : option Data }.

(** `result?.data?.customer?.metafield` *)
Definition data_customer_metafield (result : Result) : option Metafield :=
  match data result with
  | Some d => match customer d with Some c => metafield c | None => None end
  | None => None
  end.

(** `result.data?.metafieldsSet?.userErrors` *)
Definition data_metafieldsSet_userErrors (result : Result) : option (list UserError) :=
  match data result with
  | Some d => match metafieldsSet d with Some p => set_userErrors p | None => None end
  | None => None
  end.

(** `result.data?.metafieldDelete?.userErrors` *)
Definition data_metafieldDelete_userErrors (result : Result) : option (list UserError) :=
  match data result with
  | Some d => match metafieldDelete d with Some p => delete_userErrors p | None => None end
  | None => None
  end.

(** `result.data?.metafieldsSet?.metafields` *)
Definition data_metafieldsSet_metafields (result : Result) : option (list Metafield) :=
  match data result with
  | Some d => match metafieldsSet d with Some p => metafields p | None => None end
  | None => None
  end.

End Gql.

(** ** What the handlers send to the store: `fetch(graphqlUrl, ...)` *)

Module Fetch.

(** An element of `variables.metafields`. *)
Record MetafieldsSetInput := {
  ownerId : string;
  namespace : string;
  key : string;
  type : string;
  value : string }.

(** The GraphQL documents of the handlers, with what they interpolate or
    pass as variables. *)
Inductive Operation : Type :=
| getMetafieldQuery (customerId metafieldNamespace : string)
| verifyQuery (customerId metafieldNamespace : string)
| metafieldsSet (metafields : list MetafieldsSetInput)
| metafieldDelete (id : string)
| customerQuery (customerId : string).

Record Request := {
  url : string;
  accessToken : string;          (* the X-Shopify-Access-Token header *)
  operation : Operation }.

Record Response := {
  status : nat;
  statusText : string;
  text : Completion string;      (* await response.text() *)
  json : Completion Gql.Result   (* await response.json() *) }.

(** `response.ok` *)
Definition ok (r : Response) : bool :=
  ((200 <=? status r) && (status r <=? 299))%nat.

(** One call of `fetch` and how its promise settled. *)
Record Exchange := { request : Request; outcome : Completion Response }.

(** The calls that write to the store. *)
Definition is_mutation (o : Operation) : bool :=
  match o with
  | metafieldsSet _ | metafieldDelete _ => true
  | _ => false
  end.

End Fetch.

Record Session := { accessToken : string }.

(** ** The collaborators: the session storage, the remote store, the engine

    The storage and the store are reached through promises; a world [W]
    holds whatever decides how they answer, and each call may change it.
    [destructuring_null] is the `TypeError` that the engine throws at
    `const { customerId, ... } = body` when `body` is `null`; the language
    leaves its message to the engine. *)
Class Platform (W : Type) : Type := {
  findSessionsByShop : string -> W -> Completion (option (list Session)) * W;
  fetch : Fetch.Request -> W -> Completion Fetch.Response * W;
  destructuring_null : Exn }.

(** ** Requests and responses of the routes *)

Module Req.

(** `metafield.value`: a string, an array (each element by its `String(v)`),
    any other truthy value (by its `String(value)`), or a value that is
    falsy and not a string (absent, `null`, `0`, `false`). *)
Inductive Value : Type :=
| Falsy
| Str (s : string)
| Arr (elements : list string)
| Other (rendering : string).

Record Metafield := {
  key : option string;
  namespace : option string;
  value : Value }.

(** The JSON body of a request; each handler takes the fields it needs.
    [metafields] is [None] when the field is not an array. *)
Record Body := {
  customerId : option string;
  shop : option string;
  metafields : option (list Metafield);
  productHandle : option string }.

(** `await request.json()`: the promise rejects, because the body is not
    JSON, or it yields `null`, or it yields any other value, which is read
    as an object through the fields that the handlers take from it (a value
    that is not an object has none of them). *)
Inductive Json : Type :=
| Invalid
| Null
| Object (body : Body).

Record t := { method : string; json : Json }.

End Req.

Module AccessDenied.
Record t := {
  error : string;
  message : string;
  documentation : string;
  developerNote : string;
  shopifyError : Gql.Error }.
End AccessDenied.

Module Added.
Record t := {
  message : string;
  existingFavoritesCount : nat;
  newFavoritesAdded : nat;
  totalFavoritesCount : nat;
  allFavorites : list string;
  createdMetafields : list Gql.Metafield;
  verificationResult : Gql.Result;
  data : Gql.Result;
  updatedMetafields : nat }.
End Added.

Module Removed.
Record t := {
  message : string;
  removedProductHandle : string;
  previousFavoritesCount : nat;
  currentFavoritesCount : nat;
  remainingFavorites : list string;
  deleted : bool;
  verificationResult : Gql.Result;
  data : Gql.Result }.
End Removed.

Module Diagnostic.

(** `{ id: customer.id, email: customer.email, firstName: customer.firstName,
       lastName: customer.lastName }` *)
Record Customer := {
  id : option string;
  email : option string;
  firstName : option string;
  lastName : option string }.

Record t := {
  customer : Customer;
  favoritesMetafield : option Gql.Metafield;
  allMetafields : list Gql.Metafield;
  totalMetafields : nat;
  favoritesExists : bool;
  favoriteProducts : list string }.
End Diagnostic.

Module Http.

(** The JSON objects the handlers answer with. Every one but [Empty] has a
    `success` field. *)
Inductive Body : Type :=
| Empty                                        (* new Response(null) *)
| Failure (error : string)                     (* { success: false, error } *)
| Denied (b : AccessDenied.t)
| NoValidHandles (error : string) (receivedMetafields : list Req.Metafield)
                 (processedValues : list string)
| Errors (errors : list Gql.Error)             (* { success: false, errors } *)
| UserErrors (errors : list Gql.UserError)     (* { success: false, errors } *)
| NotFound (error customerId productHandle : string)
           (currentFavorites : option (list string))
| CustomerNotFound (error : string)
| AddedOk (b : Added.t)
| RemovedOk (b : Removed.t)
| DiagnosticOk (b : Diagnostic.t).

Definition success (b : Body) : option bool :=
  match b with
  | Empty => None
  | AddedOk _ | RemovedOk _ | DiagnosticOk _ => Some true
  | _ => Some false
  end.

Record Response := { status : nat; body : Body }.

(** `json(body, { status, headers })` *)
Definition json (body : Body) (status : nat) : Response :=
  {| status := status; body := body |}.

End Http.

(** ** The effects of a handler

    An `async` handler runs against the world, records every `fetch` with
    its outcome, and either produces a value or throws. *)

Definition Trace : Type := list Fetch.Exchange.

Definition M (W A : Type) : Type := W * Trace -> Completion A * (W * Trace).

Definition ret {W A : Type} (a : A) : M W A := fun s => (Normal a, s).

Definition throw {W A : Type} (e : Exn) : M W A := fun s => (Throw e, s).

Definition bind {W A B : Type} (m : M W A) (k : A -> M W B) : M W B :=
  fun s =>
    match m s with
    | (Normal a, s') => k a s'
    | (Throw e, s') => (Throw e, s')
    end.

Notation "x <- m ;; k" := (bind m (fun x => k))
  (at level 61, m at next level, right associativity).

(** `try { m } catch (error) { handler }` *)
Definition try_catch {W A : Type} (m : M W A) (handler : Exn -> M W A) : M W A :=
  fun s =>
    match m s with
    | (Throw e, s') => handler e s'
    | (Normal a, s') => (Normal a, s')
    end.

(** `await p` for a promise that has settled as [c]. *)
Definition await {W A : Type} (c : Completion A) : M W A := fun s => (c, s).

(** `await fetch(url, { method: "POST", headers, body })` *)
Definition await_fetch {W : Type} `{Platform W} (r : Fetch.Request) : M W Fetch.Response :=
  fun s =>
    let (c, w') := fetch r (fst s) in
    (c, (w', snd s ++ [ {| Fetch.request := r; Fetch.outcome := c |} ])).

(** `await sessionStorage.findSessionsByShop(shopDomain)` *)
Definition await_findSessionsByShop {W : Type} `{Platform W} (shopDomain : string)
  : M W (option (list Session)) :=
  fun s =>
    let (c, w') := findSessionsByShop shopDomain (fst s) in
    (c, (w', snd s)).

(** `if (!x) throw new Error(message)` on a field of the body, then [x]. *)
Definition required {W : Type} (x : option string) (message : string) : M W string :=
  match x with
  | Some s => if Js.truthy s then ret s else throw (Error message)
  | None => throw (Error message)
  end.

(** ** Code that the handlers repeat word for word *)

(** `error.extensions?.code === "ACCESS_DENIED"`: the entry carries the
    error code of an access restriction. *)
Definition has_access_denied_code (error : Gql.Error) : bool :=
  match Gql.code error with
  | Some c => c =? "ACCESS_DENIED"
  | None => false
  end.

(** The callback of `errors.find(...)`:
    `error.extensions?.code === "ACCESS_DENIED" &&
     error.message.includes("protected customer data")` *)
Definition is_access_denied (error : Gql.Error) : bool :=
  has_access_denied_code error
  && Js.includes (Gql.message error) "protected customer data".

(** `result.errors && result.errors.find(...)`; an array is truthy even when
    it is empty. *)
Definition accessDeniedError (errors : option (list Gql.Error)) : option Gql.Error :=
  match errors with
  | Some l => find is_access_denied l
  | None => None
  end.

(** The response of the `if (accessDeniedError)` branches. *)
Definition access_denied (accessDeniedError : Gql.Error) : Http.Response :=
  Http.json
    (Http.Denied
       {| AccessDenied.error := "Protected Customer Data Access Required";
          AccessDenied.message := "This app needs to be approved for protected customer data access to manage customer metafields. Please apply for this access in your Shopify Partner Dashboard.";
          AccessDenied.documentation := "https://shopify.dev/docs/apps/launch/protected-customer-data";
          AccessDenied.developerNote := "For development, consider using app metafields or session storage as alternatives.";
          AccessDenied.shopifyError := accessDeniedError |})
    403.

(** `shop.includes(".myshopify.com") ? shop : shop + ".myshopify.com"` *)
Definition shopDomain (shop : string) : string :=
  if Js.includes shop ".myshopify.com" then shop else shop ++ ".myshopify.com".

Definition graphqlUrl (shopDomain : string) : string :=
  "https://" ++ shopDomain ++ "/admin/api/2024-01/graphql.json".

(** The outer `catch (error)` of every handler. *)
Definition internal_error (error : Exn) : Http.Response :=
  Http.json (Http.Failure (error_text error)) 500.

(** `m.key === "favorite_products"` *)
Definition is_favorite_products (key : option string) : bool :=
  match key with
  | Some k => k =? "favorite_products"
  | None => false
  end.

(** `x || []` on an array that may be missing. *)
Definition or_empty {A : Type} (x : option (list A)) : list A :=
  match x with
  | Some l => l
  | None => []
  end.

(** ** The ADD route: `action` of the update route

    Lines 138 to 425 of `app/routes/api.update-metafields-temp.jsx`. *)

Module UpdateMetafields.

(** Step 1: the namespace named by the request, `favorites` by default. *)
Definition metafieldNamespace (metafields : list Req.Metafield) : string :=
  match find (fun m => is_favorite_products (Req.key m)) metafields with
  | Some favoritesMetafield =>
      match Req.namespace favoritesMetafield with
      | Some ns => if Js.truthy ns then ns else "favorites"
      | None => "favorites"
      end
  | None => "favorites"
  end.

(** Step 2: parse the existing favorites. [decode] is the statement
    `if (value) { currentFavorites = value.split(...)... }` on the initial
    `[]`, for `value` the result of `existingMetafield?.value`. *)
Definition decode (value : option string) : list string :=
  match value with
  | Some v => if Js.truthy v then parse_lines v else []
  | None => []
  end.

Definition currentFavorites (existingMetafield : option Gql.Metafield) : list string :=
  decode (option_map Gql.value existingMetafield).

(** `metafield.value` as a condition. *)
Definition value_truthy (v : Req.Value) : bool :=
  match v with
  | Req.Falsy => false
  | Req.Str s => Js.truthy s
  | Req.Arr _ | Req.Other _ => true
  end.

(** Step 3, the body of the `forEach`: what one metafield of the request
    contributes. A string loses a quote at each end before it is split. *)
Definition newValues (metafield : Req.Metafield) : list string :=
  if is_favorite_products (Req.key metafield) && value_truthy (Req.value metafield) then
    match Req.value metafield with
    | Req.Str s => parse_lines (Js.strip_quotes s)
    | Req.Arr elements => filter Js.truthy (map clean elements)
    | Req.Other rendering => filter Js.truthy [clean rendering]
    | Req.Falsy => []
    end
  else [].

Definition allNewFavorites (metafields : list Req.Metafield) : list string :=
  flat_map newValues metafields.

(** Step 4: `Array.from(new Set([...currentFavorites, ...allNewFavorites]))` *)
Definition mergedFavorites (currentFavorites allNewFavorites : list string) : list string :=
  Js.Set_from (currentFavorites ++ allNewFavorites).

(** `variables` of the `metafieldsSet` mutation. *)
Definition variables (customerId metafieldNamespace : string) (favorites : list string)
  : list Fetch.MetafieldsSetInput :=
  [ {| Fetch.ownerId := customerId;
       Fetch.namespace := metafieldNamespace;
       Fetch.key := "favorite_products";
       Fetch.type := "multi_line_text_field";
       Fetch.value := encode favorites |} ].

Section Route.
Context {W : Type} `{Platform W}.

Definition action (request : Req.t) : M W Http.Response :=
  if Req.method request =? "OPTIONS" then ret (Http.json Http.Empty 204) else
  try_catch
    (body <- match Req.json request with
             | Req.Object b => ret b
             | Req.Null => throw destructuring_null
             | Req.Invalid => throw (Error "Invalid request body. Expected JSON.")
             end ;;
     customerId <- required (Req.customerId body) "Missing required field: customerId" ;;
     shop <- required (Req.shop body) "Missing required field: shop" ;;
     metafields <- match Req.metafields body with
                   | Some (m :: ms) => ret (m :: ms)
                   | _ => throw (Error "metafields must be a non-empty array")
                   end ;;
     let shopDomain := shopDomain shop in
     sessions <- await_findSessionsByShop shopDomain ;;
     match sessions with
     | None | Some [] =>
         throw (Error ("No active session found for shop: " ++ shopDomain))
     | Some (session :: _) =>
         let graphqlUrl := graphqlUrl shopDomain in
         let metafieldNamespace := metafieldNamespace metafields in
         getMetafieldResponse <-
           await_fetch {| Fetch.url := graphqlUrl;
                          Fetch.accessToken := accessToken session;
                          Fetch.operation :=
                            Fetch.getMetafieldQuery customerId metafieldNamespace |} ;;
         getMetafieldResult <- await (Fetch.json getMetafieldResponse) ;;
         match accessDeniedError (Gql.errors getMetafieldResult) with
         | Some accessDeniedError => ret (access_denied accessDeniedError)
         | None =>
             let existingMetafield := Gql.data_customer_metafield getMetafieldResult in
             let currentFavorites := currentFavorites existingMetafield in
             let allNewFavorites := allNewFavorites metafields in
             let mergedFavorites := mergedFavorites currentFavorites allNewFavorites in
             if (length mergedFavorites =? 0)%nat then
               ret (Http.json
                      (Http.NoValidHandles
                         "No valid product handles found after processing"
                         metafields allNewFavorites)
                      400)
             else
               response <-
                 await_fetch {| Fetch.url := graphqlUrl;
                                Fetch.accessToken := accessToken session;
                                Fetch.operation :=
                                  Fetch.metafieldsSet
                                    (variables customerId metafieldNamespace
                                               mergedFavorites) |} ;;
               if negb (Fetch.ok response) then
                 errorText <- await (Fetch.text response) ;;
                 throw (Error ("GraphQL request failed: "
                               ++ Js.of_nat (Fetch.status response) ++ " "
                               ++ Fetch.statusText response))
               else
                 result <- await (Fetch.json response) ;;
                 match Gql.errors result with
                 | Some errors =>
                     match find is_access_denied errors with
                     | Some accessDeniedError => ret (access_denied accessDeniedError)
                     | None => ret (Http.json (Http.Errors errors) 400)
                     end
                 | None =>
                     let userErrors := or_empty (Gql.data_metafieldsSet_userErrors result) in
                     if (0 <? length userErrors)%nat then
                       ret (Http.json (Http.UserErrors userErrors) 400)
                     else
                       let createdMetafields :=
                         or_empty (Gql.data_metafieldsSet_metafields result) in
                       verifyResponse <-
                         await_fetch {| Fetch.url := graphqlUrl;
                                        Fetch.accessToken := accessToken session;
                                        Fetch.operation :=
                                          Fetch.verifyQuery customerId
                                                            metafieldNamespace |} ;;
                       verifyResult <- await (Fetch.json verifyResponse) ;;
                       ret (Http.json
                              (Http.AddedOk
                                 {| Added.message :=
                                      "Successfully added "
                                      ++ Js.of_nat (length allNewFavorites)
                                      ++ " new favorites to existing "
                                      ++ Js.of_nat (length currentFavorites)
                                      ++ ". Total: "
                                      ++ Js.of_nat (length mergedFavorites);
                                    Added.existingFavoritesCount := length currentFavorites;
                                    Added.newFavoritesAdded := length allNewFavorites;
                                    Added.totalFavoritesCount := length mergedFavorites;
                                    Added.allFavorites := mergedFavorites;
                                    Added.createdMetafields := createdMetafields;
                                    Added.verificationResult := verifyResult;
                                    Added.data := result;
                                    Added.updatedMetafields := length createdMetafields |})
                              200)
                 end
         end
     end)
    (fun error => ret (internal_error error)).

End Route.

End UpdateMetafields.

(** ** The REMOVE route: `action` of the remove route

    Lines 34 to 317 of the module that logs as `[remove-metafields]`. *)

Module RemoveMetafields.

(** Step 1: the namespace is a constant of this route. *)
Definition metafieldNamespace : string := "favorite".

(** `currentFavorites.filter(handle => handle !== productHandle)` *)
Definition updatedFavorites (currentFavorites : list string) (productHandle : string)
  : list string :=
  filter (fun handle => negb (handle =? productHandle)) currentFavorites.

(** Step 4: the mutation, a delete when nothing is left and a set of the
    remaining list otherwise. *)
Definition mutation (customerId : string) (existingMetafield : Gql.Metafield)
    (updatedFavorites : list string) : Fetch.Operation :=
  if (length updatedFavorites =? 0)%nat then
    Fetch.metafieldDelete (Gql.id existingMetafield)
  else
    Fetch.metafieldsSet
      [ {| Fetch.ownerId := customerId;
           Fetch.namespace := metafieldNamespace;
           Fetch.key := "favorite_products";
           Fetch.type := "multi_line_text_field";
           Fetch.value := encode updatedFavorites |} ].

Definition responseMessage (productHandle : string) (updatedFavorites : list string)
  : string :=
  if (length updatedFavorites =? 0)%nat then
    "Successfully removed " ++ String Js.DQ productHandle ++ String Js.DQ
    " from favorites. All favorites cleared."
  else
    "Successfully removed " ++ String Js.DQ productHandle ++ String Js.DQ
    " from favorites. " ++ Js.of_nat (length updatedFavorites)
    ++ " favorites remaining.".

(** `a || b || []` on the user errors of the two mutations. *)
Definition userErrors (result : Gql.Result) : list Gql.UserError :=
  match Gql.data_metafieldsSet_userErrors result with
  | Some l => l
  | None => or_empty (Gql.data_metafieldDelete_userErrors result)
  end.

Section Route.
Context {W : Type} `{Platform W}.

Definition action (request : Req.t) : M W Http.Response :=
  if Req.method request =? "OPTIONS" then ret (Http.json Http.Empty 204) else
  try_catch
    (body <- match Req.json request with
             | Req.Object b => ret b
             | Req.Null => throw destructuring_null
             | Req.Invalid => throw (Error "Invalid request body. Expected JSON.")
             end ;;
     customerId <- required (Req.customerId body) "Missing required field: customerId" ;;
     productHandle <- required (Req.productHandle body)
                               "Missing required field: productHandle" ;;
     shop <- required (Req.shop body) "Missing required field: shop" ;;
     let shopDomain := shopDomain shop in
     sessions <- await_findSessionsByShop shopDomain ;;
     match sessions with
     | None | Some [] =>
         throw (Error ("No active session found for shop: " ++ shopDomain))
     | Some (session :: _) =>
         let graphqlUrl := graphqlUrl shopDomain in
         getMetafieldResponse <-
           await_fetch {| Fetch.url := graphqlUrl;
                          Fetch.accessToken := accessToken session;
                          Fetch.operation :=
                            Fetch.getMetafieldQuery customerId metafieldNamespace |} ;;
         getMetafieldResult <- await (Fetch.json getMetafieldResponse) ;;
         match accessDeniedError (Gql.errors getMetafieldResult) with
         | Some accessDeniedError => ret (access_denied accessDeniedError)
         | None =>
             match Gql.data_customer_metafield getMetafieldResult with
             | None =>
                 ret (Http.json
                        (Http.NotFound "No favorite products found for this customer"
                                       customerId productHandle None)
                        404)
             | Some existingMetafield =>
                 if negb (Js.truthy (Gql.value existingMetafield)) then
                   ret (Http.json
                          (Http.NotFound "No favorite products found for this customer"
                                         customerId productHandle None)
                          404)
                 else
                   let currentFavorites := parse_lines (Gql.value existingMetafield) in
                   if negb (Js.array_includes currentFavorites productHandle) then
                     ret (Http.json
                            (Http.NotFound "Product handle not found in favorites"
                                           customerId productHandle
                                           (Some currentFavorites))
                            404)
                   else
                     let updatedFavorites := updatedFavorites currentFavorites productHandle in
                     response <-
                       await_fetch {| Fetch.url := graphqlUrl;
                                      Fetch.accessToken := accessToken session;
                                      Fetch.operation :=
                                        mutation customerId existingMetafield
                                                 updatedFavorites |} ;;
                     if negb (Fetch.ok response) then
                       errorText <- await (Fetch.text response) ;;
                       throw (Error ("GraphQL request failed: "
                                     ++ Js.of_nat (Fetch.status response) ++ " "
                                     ++ Fetch.statusText response))
                     else
                       result <- await (Fetch.json response) ;;
                       match Gql.errors result with
                       | Some errors =>
                           match find is_access_denied errors with
                           | Some accessDeniedError =>
                               ret (access_denied accessDeniedError)
                           | None => ret (Http.json (Http.Errors errors) 400)
                           end
                       | None =>
                           let userErrors := userErrors result in
                           if (0 <? length userErrors)%nat then
                             ret (Http.json (Http.UserErrors userErrors) 400)
                           else
                             verifyResponse <-
                               await_fetch {| Fetch.url := graphqlUrl;
                                              Fetch.accessToken := accessToken session;
                                              Fetch.operation :=
                                                Fetch.verifyQuery customerId
                                                                  metafieldNamespace |} ;;
                             verifyResult <- await (Fetch.json verifyResponse) ;;
                             ret (Http.json
                                    (Http.RemovedOk
                                       {| Removed.message :=
                                            responseMessage productHandle updatedFavorites;
                                          Removed.removedProductHandle := productHandle;
                                          Removed.previousFavoritesCount :=
                                            length currentFavorites;
                                          Removed.currentFavoritesCount :=
                                            length updatedFavorites;
                                          Removed.remainingFavorites := updatedFavorites;
                                          Removed.deleted :=
                                            (length updatedFavorites =? 0)%nat;
                                          Removed.verificationResult := verifyResult;
                                          Removed.data := result |})
                                    200)
                       end
             end
         end
     end)
    (fun error => ret (internal_error error)).

End Route.

End RemoveMetafields.

(** ** The READ-ALL route: `loader` of `app/routes/api.get-metafields.jsx` *)

Module GetMetafields.

(** `favoritesMetafield?.value ? favoritesMetafield.value.split('\n').filter(Boolean) : []` *)
Definition favoriteProducts (favoritesMetafield : option Gql.Metafield) : list string :=
  match favoritesMetafield with
  | Some m =>
      if Js.truthy (Gql.value m) then filter Js.truthy (Js.split Js.LF (Gql.value m))
      else []
  | None => []
  end.

(** The query parameters of the request: `url.searchParams.get(name)`. *)
Record Params := { customerId : option string; shop : option string }.

Section Route.
Context {W : Type} `{Platform W}.

Definition loader (params : Params) : M W Http.Response :=
  try_catch
    (customerId <- required (customerId params) "Missing required parameter: customerId" ;;
     shop <- required (shop params) "Missing required parameter: shop" ;;
     let shopDomain := shopDomain shop in
     sessions <- await_findSessionsByShop shopDomain ;;
     match sessions with
     | None | Some [] =>
         throw (Error ("No active session found for shop: " ++ shopDomain))
     | Some (session :: _) =>
         response <-
           await_fetch {| Fetch.url := graphqlUrl shopDomain;
                          Fetch.accessToken := accessToken session;
                          Fetch.operation := Fetch.customerQuery customerId |} ;;
         if negb (Fetch.ok response) then
           throw (Error ("GraphQL request failed: "
                         ++ Js.of_nat (Fetch.status response) ++ " "
                         ++ Fetch.statusText response))
         else
           result <- await (Fetch.json response) ;;
           match Gql.errors result with
           | Some errors => ret (Http.json (Http.Errors errors) 400)
           | None =>
               match match Gql.data result with
                     | Some d => Gql.customer d
                     | None => None
                     end with
               | None => ret (Http.json (Http.CustomerNotFound "Customer not found") 404)
               | Some customer =>
                   let allMetafields := or_empty (Gql.edges customer) in
                   let favoritesMetafield := Gql.metafield customer in
                   ret (Http.json
                          (Http.DiagnosticOk
                             {| Diagnostic.customer :=
                                  {| Diagnostic.id := Gql.customer_id customer;
                                     Diagnostic.email := Gql.email customer;
                                     Diagnostic.firstName := Gql.firstName customer;
                                     Diagnostic.lastName := Gql.lastName customer |};
                                Diagnostic.favoritesMetafield := favoritesMetafield;
                                Diagnostic.allMetafields := allMetafields;
                                Diagnostic.totalMetafields := length allMetafields;
                                Diagnostic.favoritesExists :=
                                  match favoritesMetafield with
                                  | Some _ => true
                                  | None => false
                                  end;
                                Diagnostic.favoriteProducts :=
                                  favoriteProducts favoritesMetafield |})
                          200)
               end
           end
     end)
    (fun error => ret (internal_error error)).

End Route.

End GetMetafields.

(** ** The `-temp` variant of the update route

    The first module of `app/routes/api.update-metafields-temp.jsx`. Its
    `action` validates the body as the update route does, and then only
    reports the handle it was sent: it calls neither the session storage
    nor the store. *)

Module UpdateMetafieldsTemp.

(** `metafield.value` as this `action` reads it: absent or `null`, a string,
    or any other JSON value (a number, a boolean, an array, an object), none
    of which has a method `replace`. *)
Inductive Value : Type :=
| Nullish
| Str (s : string)
| NotAString.

Record Metafield := { key : option string; value : Value }.

Record Body := {
  customerId : option string;
  shop : option string;
  metafields : option (list Metafield) }.

(** `await request.json()`: the promise rejects, or it yields `null`, or it
    yields any other value, read as an object through its fields. *)
Inductive Json : Type :=
| Invalid
| Null
| Object (body : Body).

Record Request := { method : string; json : Json }.

Module Processed.
Record t := {
  message : string;
  customerId : string;
  productHandle : string;
  shop : string;
  timestamp : string;
  note : string }.
End Processed.

Inductive Answer : Type :=
| Empty                                        (* new Response(null) *)
| Failure (error : string)                     (* { success: false, error } *)
| ProcessedOk (b : Processed.t).

Record Response := { status : nat; body : Answer }.

Section Action.

(** `new Date().toISOString()` when the response is built, and the
    `TypeError`s of the engine for the call of a `replace` that is not a
    function and for the destructuring of a body that is `null`. *)
Variable now : string.
Variable not_a_function : Exn.
Variable null_body : Exn.
Context {W : Type}.

(** `metafields.find(m => m.key === "favorite_products")` *)
Definition favoritesMetafield (metafields : list Metafield) : option Metafield :=
  find (fun m => is_favorite_products (key m)) metafields.

(** `favoritesMetafield?.value?.replace(PATTERN, '') || "unknown"` *)
Definition productHandle (metafields : list Metafield) : M W string :=
  match favoritesMetafield metafields with
  | None => ret "unknown"
  | Some m =>
      match value m with
      | Nullish => ret "unknown"
      | Str s =>
          let stripped := Js.strip_quotes s in
          ret (if Js.truthy stripped then stripped else "unknown")
      | NotAString => throw not_a_function
      end
  end.

Definition action (request : Request) : M W Response :=
  if method request =? "OPTIONS" then ret {| status := 204; body := Empty |} else
  try_catch
    (body <- match json request with
             | Object b => ret b
             | Null => throw null_body
             | Invalid => throw (Error "Invalid request body. Expected JSON.")
             end ;;
     customerId <- required (customerId body) "Missing required field: customerId" ;;
     shop <- required (shop body) "Missing required field: shop" ;;
     metafields <- match metafields body with
                   | Some (m :: ms) => ret (m :: ms)
                   | _ => throw (Error "metafields must be a non-empty array")
                   end ;;
     productHandle <- productHandle metafields ;;
     ret {| status := 200;
            body :=
              ProcessedOk
                {| Processed.message :=
                     "Successfully processed favorite for product: " ++ productHandle;
                   Processed.customerId := customerId;
                   Processed.productHandle := productHandle;
                   Processed.shop := shop;
                   Processed.timestamp := now;
                   Processed.note :=
                     "This is working without customer metafield permissions. Data logged to console." |} |})
    (fun error => ret {| status := 500; body := Failure (error_text error) |}).

(** The response of the `action`. The `catch` returns, so the `action`
    never ends in [Throw]; that case is mapped to the response of the
    `catch` for totality. *)
Definition respond (request : Request) (w : W) : Response :=
  match action request (w, []) with
  | (Normal r, _) => r
  | (Throw e, _) => {| status := 500; body := Failure (error_text e) |}
  end.

End Action.

End UpdateMetafieldsTemp.

(** ** Running a handler *)

(** What a handler leaves when it is started in world [w]: its response,
    the world, and the trace of its calls to the store. The `catch` of the
    handlers returns, so a handler never ends in [Throw]; [run] maps that
    case to the response of the `catch` for totality. *)
Record Run (W : Type) : Type := {
  response : Http.Response;
  world_after : W;
  trace : Trace }.
Arguments response {W} r.
Arguments world_after {W} r.
Arguments trace {W} r.

Definition run {W : Type} (handler : M W Http.Response) (w : W) : Run W :=
  match handler (w, []) with
  | (Normal r, (w', tr)) => {| response := r; world_after := w'; trace := tr |}
  | (Throw e, (w', tr)) =>
      {| response := internal_error e; world_after := w'; trace := tr |}
  end.

(** The two routes that change the list. *)
Inductive Route : Type := api_update_metafields | api_remove_metafields.

Definition action {W : Type} `{Platform W} (route : Route) (request : Req.t)
  : M W Http.Response :=
  match route with
  | api_update_metafields => UpdateMetafields.action request
  | api_remove_metafields => RemoveMetafields.action request
  end.

(** ** A world that answers from a script

    The session storage always settles the same way, and the store gives
    the answers of a list in order; when the list is used up `fetch`
    rejects. It serves to run the handlers on concrete exchanges. *)

Record Script := {
  sessions : Completion (option (list Session));
  answers : list (Completion Fetch.Response) }.

#[export] Instance scripted : Platform Script := {
  findSessionsByShop _ w := (sessions w, w);
  fetch _ w :=
    match answers w with
    | a :: rest => (a, {| sessions := sessions w; answers := rest |})
    | [] => (Throw {| exn_name := "TypeError"; exn_message := "fetch failed" |}, w)
    end;
  destructuring_null :=
    {| exn_name := "TypeError";
       exn_message := "Cannot destructure property 'customerId' of 'body' as it is null." |} }.

Module Sample.

Definition session : Session := {| accessToken := "shpat_token" |}.

(** An HTTP 200 response whose body parses as [result]. *)
Definition ok_json (result : Gql.Result) : Completion Fetch.Response :=
  Normal {| Fetch.status := 200; Fetch.statusText := "OK";
            Fetch.text := Normal ""; Fetch.json := Normal result |}.

Definition stored (id value : string) : Gql.Metafield :=
  {| Gql.id := id; Gql.namespace := None; Gql.key := None; Gql.value := value;
     Gql.type := Some "multi_line_text_field"; Gql.updatedAt := None |}.

(** `{ data: { customer: { metafield } } }` *)
Definition field_result (metafield : option Gql.Metafield) : Gql.Result :=
  {| Gql.errors := None;
     Gql.data := Some {| Gql.customer :=
                           Some {| Gql.customer_id := None; Gql.email := None;
                                   Gql.firstName := None; Gql.lastName := None;
                                   Gql.edges := None; Gql.metafield := metafield |};
                         Gql.metafieldsSet := None;
                         Gql.metafieldDelete := None |} |}.

(** `{ data: { metafieldsSet: { metafields, userErrors: [] } } }` *)
Definition set_result (metafields : list Gql.Metafield) : Gql.Result :=
  {| Gql.errors := None;
     Gql.data := Some {| Gql.customer := None;
                         Gql.metafieldsSet :=
                           Some {| Gql.metafields := Some metafields;
                                   Gql.set_userErrors := Some [] |};
                         Gql.metafieldDelete := None |} |}.

(** `{ data: { metafieldDelete: { deletedId, userErrors: [] } } }` *)
Definition delete_result (id : string) : Gql.Result :=
  {| Gql.errors := None;
     Gql.data := Some {| Gql.customer := None;
                         Gql.metafieldsSet := None;
                         Gql.metafieldDelete :=
                           Some {| Gql.deletedId := Some id;
                                   Gql.delete_userErrors := Some [] |} |} |}.

(** `{ errors, data: null }` *)
Definition errors_result (errors : list Gql.Error) : Gql.Result :=
  {| Gql.errors := Some errors; Gql.data := None |}.

Definition world (answers : list (Completion Fetch.Response)) : Script :=
  {| sessions := Normal (Some [session]); answers := answers |}.

Definition favorite (value : Req.Value) : Req.Metafield :=
  {| Req.key := Some "favorite_products"; Req.namespace := None; Req.value := value |}.

Definition add (customerId shop : option string) (metafields : option (list Req.Metafield))
  : Req.t :=
  {| Req.method := "POST";
     Req.json := Req.Object {| Req.customerId := customerId; Req.shop := shop;
                         Req.metafields := metafields; Req.productHandle := None |} |}.

Definition remove (customerId productHandle shop : option string) : Req.t :=
  {| Req.method := "POST";
     Req.json := Req.Object {| Req.customerId := customerId; Req.shop := shop;
                         Req.metafields := None; Req.productHandle := productHandle |} |}.

Definition customer : string := "gid://shopify/Customer/1".

Definition lines (l : list string) : string := Js.join Js.LFs l.

End Sample.

(** ** A store that remembers

    A test double of the remote store that follows its contract: a query
    returns the field of the (owner, namespace) pair, `metafieldsSet`
    creates or overwrites it, `metafieldDelete` removes the field with the
    given id. Every shop has one session. *)

Module Memory.

Record Entry := { owner : string; namespace : string; value : string }.

Definition Store : Type := list Entry.

Definition same_field (o n : string) (e : Entry) : bool :=
  (owner e =? o) && (namespace e =? n).

(** The id of the field of an owner in a namespace. *)
Definition id_of (o n : string) : string := o ++ "/" ++ n.

Definition lookup (o n : string) (st : Store) : option Gql.Metafield :=
  match find (same_field o n) st with
  | Some e => Some (Sample.stored (id_of o n) (value e))
  | None => None
  end.

Definition set (i : Fetch.MetafieldsSetInput) (st : Store) : Store :=
  {| owner := Fetch.ownerId i; namespace := Fetch.namespace i; value := Fetch.value i |}
  :: filter (fun e => negb (same_field (Fetch.ownerId i) (Fetch.namespace i) e)) st.

Definition delete (id : string) (st : Store) : Store :=
  filter (fun e => negb (id_of (owner e) (namespace e) =? id)) st.

Definition answer (o : Fetch.Operation) (st : Store) : Gql.Result * Store :=
  match o with
  | Fetch.getMetafieldQuery c n | Fetch.verifyQuery c n =>
      (Sample.field_result (lookup c n st), st)
  | Fetch.customerQuery c => (Sample.field_result (lookup c "favorites" st), st)
  | Fetch.metafieldsSet inputs =>
      let st' := fold_left (fun acc i => set i acc) inputs st in
      (Sample.set_result
         (map (fun i => Sample.stored (id_of (Fetch.ownerId i) (Fetch.namespace i))
                                      (Fetch.value i)) inputs),
       st')
  | Fetch.metafieldDelete id => (Sample.delete_result id, delete id st)
  end.

#[global] Instance platform : Platform Store := {
  findSessionsByShop _ st := (Normal (Some [Sample.session]), st);
  fetch r st :=
    let (result, st') := answer (Fetch.operation r) st in
    (Sample.ok_json result, st');
  destructuring_null := destructuring_null (W := Script) }.

End Memory.


(** * The vocabulary of the properties

    Definitions that the statements below use and that are not code of
    the handlers. *)

(** ** Handles and sets of handles *)

(** [occurs c s]: the code unit [c] occurs in [s]. *)
Fixpoint occurs (c : ascii) (s : string) : bool :=
  match s with
  | EmptyString => false
  | String d s' => Ascii.eqb d c || occurs c s'
  end.

Definition first_char (s : string) : option ascii :=
  match s with
  | String c _ => Some c
  | EmptyString => None
  end.

Fixpoint last_char (s : string) : option ascii :=
  match s with
  | EmptyString => None
  | String c EmptyString => Some c
  | String _ s' => last_char s'
  end.

(** A code unit that cleaning removes from the end of a line. *)
Definition is_edge (c : option ascii) : bool :=
  match c with
  | Some c => Js.is_white_space c || Js.is_quote c
  | None => false
  end.

(** A handle that neither begins nor ends with white space or a quote. *)
Definition tidy (h : string) : bool :=
  negb (is_edge (first_char h)) && negb (is_edge (last_char h)).

(** Handles as a set: the same members. *)
Definition same_set (a b : list string) : Prop := forall h, In h a <-> In h b.

(** A line wrapped in two pairs of quotes. *)
Definition twice_quoted : string :=
  String Js.DQ (String Js.DQ ("a" ++ String Js.DQ (String Js.DQ ""))).

(** Modelled on the words of the specification: the deduplication of a
    sequence keeps the first occurrence of every handle, in the order in
    which the handles are first seen. *)
Fixpoint dedupe_first_seen (l : list string) : list string :=
  match l with
  | [] => []
  | x :: rest => x :: filter (fun y => negb (y =? x)) (dedupe_first_seen rest)
  end.

(** Modelled on the words of the specification: the incoming candidates that
    are net-new, those not already present in the current list. *)
Definition net_new (current incoming : list string) : list string :=
  filter (fun h => negb (Js.array_includes current h)) incoming.

(** `newFavoritesAdded` of a response, when it has one. *)
Definition newFavoritesAdded (b : Http.Body) : option nat :=
  match b with
  | Http.AddedOk a => Some (Added.newFavoritesAdded a)
  | _ => None
  end.

(** ** Requests *)

(** `!x` on a field of the body. *)
Definition absent (x : option string) : bool :=
  match x with
  | Some s => negb (Js.truthy s)
  | None => true
  end.

(** A required input field is missing: `customerId`, `shop`, and
    `productHandle` for REMOVE or a non-empty `metafields` array for ADD. *)
Definition missing_required_field (route : Route) (body : Req.Body) : bool :=
  match route with
  | api_update_metafields =>
      absent (Req.customerId body) || absent (Req.shop body)
      || match Req.metafields body with
         | Some (_ :: _) => false
         | _ => true
         end
  | api_remove_metafields =>
      absent (Req.customerId body) || absent (Req.productHandle body)
      || absent (Req.shop body)
  end.

(** The checks that a route makes on the body, in the order in which it
    makes them: whether the body fails the check, and the message of the
    check. *)
Definition checks (route : Route) (body : Req.Body) : list (bool * string) :=
  match route with
  | api_update_metafields =>
      [ (absent (Req.customerId body), "Missing required field: customerId");
        (absent (Req.shop body), "Missing required field: shop");
        (match Req.metafields body with
         | Some (_ :: _) => false
         | _ => true
         end, "metafields must be a non-empty array") ]
  | api_remove_metafields =>
      [ (absent (Req.customerId body), "Missing required field: customerId");
        (absent (Req.productHandle body), "Missing required field: productHandle");
        (absent (Req.shop body), "Missing required field: shop") ]
  end.

(** The message of the failed check: of the first check that the body
    fails. *)
Definition failed_check (route : Route) (body : Req.Body) : option string :=
  option_map snd (find fst (checks route body)).

(** The messages of the `throw` statements that validate the body. *)
Definition validation_messages (route : Route) : list string :=
  match route with
  | api_update_metafields =>
      ["Missing required field: customerId"; "Missing required field: shop";
       "metafields must be a non-empty array"]
  | api_remove_metafields =>
      ["Missing required field: customerId"; "Missing required field: productHandle";
       "Missing required field: shop"]
  end.

(** ** Exchanges with the store *)

(** The error list a handler obtains from an exchange with the store: the
    `errors` of the parsed body of the read, or of the write when its HTTP
    status is OK (the body of any other write response is not parsed). The
    body of the verification read is never inspected. *)
Definition reported_errors (x : Fetch.Exchange) : option (list Gql.Error) :=
  match Fetch.outcome x with
  | Normal r =>
      match Fetch.operation (Fetch.request x) with
      | Fetch.getMetafieldQuery _ _ =>
          match Fetch.json r with
          | Normal result => Gql.errors result
          | Throw _ => None
          end
      | Fetch.metafieldsSet _ | Fetch.metafieldDelete _ =>
          if Fetch.ok r then
            match Fetch.json r with
            | Normal result => Gql.errors result
            | Throw _ => None
            end
          else None
      | _ => None
      end
  | Throw _ => None
  end.

Definition is_verify (o : Fetch.Operation) : bool :=
  match o with
  | Fetch.verifyQuery _ _ => true
  | _ => false
  end.

(** The user errors a route looks at in the result of its write. *)
Definition write_userErrors (route : Route) (result : Gql.Result) : list Gql.UserError :=
  match route with
  | api_update_metafields => or_empty (Gql.data_metafieldsSet_userErrors result)
  | api_remove_metafields => RemoveMetafields.userErrors result
  end.

(** The write mutation has succeeded: the exchange is a mutation, its
    response is OK and parses, and the result carries neither top-level
    errors nor user errors. *)
Definition write_succeeded (route : Route) (y : Fetch.Exchange) : bool :=
  Fetch.is_mutation (Fetch.operation (Fetch.request y))
  && match Fetch.outcome y with
     | Normal r =>
         Fetch.ok r
         && match Fetch.json r with
            | Normal result =>
                match Gql.errors result with
                | None => (length (write_userErrors route result) =? 0)%nat
                | Some _ => false
                end
            | Throw _ => false
            end
     | Throw _ => false
     end.

(** The body of a response to the verification read, when it parses. *)
Definition parsed_body (v : Fetch.Exchange) : option Gql.Result :=
  match Fetch.outcome v with
  | Normal r =>
      match Fetch.json r with
      | Normal result => Some result
      | Throw _ => None
      end
  | Throw _ => None
  end.

(** `verificationResult` of a response, when it has one. *)
Definition verificationResult (b : Http.Body) : option Gql.Result :=
  match b with
  | Http.AddedOk a => Some (Added.verificationResult a)
  | Http.RemovedOk a => Some (Removed.verificationResult a)
  | _ => None
  end.

(** The namespace a call to the store names. *)
Definition namespace_of (o : Fetch.Operation) : option string :=
  match o with
  | Fetch.getMetafieldQuery _ ns | Fetch.verifyQuery _ ns => Some ns
  | Fetch.metafieldsSet [input] => Some (Fetch.namespace input)
  | _ => None
  end.

(** ** Responses *)

(** `favoriteProducts` of a response, when it has one. *)
Definition favoriteProducts (b : Http.Body) : option (list string) :=
  match b with
  | Http.DiagnosticOk d => Some (Diagnostic.favoriteProducts d)
  | _ => None
  end.

(** `deleted` of a response, when it has one. *)
Definition deleted (b : Http.Body) : option bool :=
  match b with
  | Http.RemovedOk a => Some (Removed.deleted a)
  | _ => None
  end.

(** `remainingFavorites` of a response, when it has one. *)
Definition remainingFavorites (b : Http.Body) : option (list string) :=
  match b with
  | Http.RemovedOk a => Some (Removed.remainingFavorites a)
  | _ => None
  end.

(** Modelled on the words of the specification: the wire format of a list,
    its handles one per line, a line feed between each handle and the
    next. *)
Fixpoint one_per_line (handles : list string) : string :=
  match handles with
  | [] => EmptyString
  | [h] => h
  | h :: rest => h ++ String Js.LF (one_per_line rest)
  end.

(** Modelled on the words of the specification: the decoded current list,
    the lines of the value of the field, each cleaned, without the empty
    ones; the empty list when the field is absent. *)
Definition decoded (field : option Gql.Metafield) : list string :=
  match field with
  | Some m => parse_lines (Gql.value m)
  | None => []
  end.

(** `currentFavorites` of a not-found response, when it has one. *)
Definition currentFavorites (b : Http.Body) : option (list string) :=
  match b with
  | Http.NotFound _ _ _ currentFavorites => currentFavorites
  | _ => None
  end.

(** `allFavorites` of a response, when it has one. *)
Definition allFavorites (b : Http.Body) : option (list string) :=
  match b with
  | Http.AddedOk a => Some (Added.allFavorites a)
  | _ => None
  end.

(** ** Lines of a stored value *)

(** Every code unit of [s] is white space other than a line feed. *)
Fixpoint padding (s : string) : bool :=
  match s with
  | EmptyString => true
  | String c s' => Js.is_white_space c && negb (Ascii.eqb c Js.LF) && padding s'
  end.

(** `q` of a line: nothing, or one quote character. *)
Definition quote_mark (q : option ascii) : bool :=
  match q with
  | Some c => Js.is_quote c
  | None => true
  end.

Definition mark (q : option ascii) : string :=
  match q with
  | Some c => String c EmptyString
  | None => EmptyString
  end.

(** A line of the wire format: a handle, a quote character or none at each
    end, white space around. *)
Record WireLine := {
  before : string;
  opening : option ascii;
  handle : string;
  closing : option ascii;
  after : string }.

Definition render (l : WireLine) : string :=
  before l ++ mark (opening l) ++ handle l ++ mark (closing l) ++ after l.

(** The handle is not empty, holds no line feed, and neither begins nor ends
    with white space or a quote; the marks are quotes; the padding is white
    space within the line. *)
Definition well_formed (l : WireLine) : bool :=
  padding (before l) && quote_mark (opening l)
  && Js.truthy (handle l) && negb (occurs Js.LF (handle l)) && tidy (handle l)
  && quote_mark (closing l) && padding (after l).

(** ** More on the exchanges of a route *)

(** The session storage gave no session: it rejected, or it answered with
    nothing or with an empty list. *)
Definition no_session (c : Completion (option (list Session))) : bool :=
  match c with
  | Normal (Some (_ :: _)) => false
  | _ => true
  end.

(** The write of a route: ADD sets, REMOVE sets or deletes. *)
Definition writes (route : Route) (o : Fetch.Operation) : bool :=
  match route, o with
  | api_update_metafields, Fetch.metafieldsSet _ => true
  | api_remove_metafields, (Fetch.metafieldsSet _ | Fetch.metafieldDelete _) => true
  | _, _ => false
  end.

(** The calls of a trace are a read, then a write, then a verification
    read, or the first ones of these. *)
Definition call_order (route : Route) (tr : Trace) : bool :=
  match map (fun x => Fetch.operation (Fetch.request x)) tr with
  | [] => true
  | [Fetch.getMetafieldQuery _ _] => true
  | [Fetch.getMetafieldQuery _ _; w] => writes route w
  | [Fetch.getMetafieldQuery _ _; w; Fetch.verifyQuery _ _] => writes route w
  | _ => false
  end.

(** The result that a handler parses from the response to its write: the
    body of a mutation whose HTTP status is OK. *)
Definition written (y : Fetch.Exchange) : option Gql.Result :=
  if Fetch.is_mutation (Fetch.operation (Fetch.request y)) then
    match Fetch.outcome y with
    | Normal r =>
        if Fetch.ok r then
          match Fetch.json r with
          | Normal result => Some result
          | Throw _ => None
          end
        else None
    | Throw _ => None
    end
  else None.

(** What is thrown at a write that yields no result: the rejection of the
    fetch, the error made of a status that is not OK (or the rejection of
    `response.text()` before it), the rejection of `response.json()`. *)
Definition write_exception (y : Fetch.Exchange) : option Exn :=
  if Fetch.is_mutation (Fetch.operation (Fetch.request y)) then
    match Fetch.outcome y with
    | Throw e => Some e
    | Normal r =>
        if Fetch.ok r then
          match Fetch.json r with
          | Throw e => Some e
          | Normal _ => None
          end
        else
          match Fetch.text r with
          | Throw e => Some e
          | Normal _ =>
              Some (Error ("GraphQL request failed: " ++ Js.of_nat (Fetch.status r)
                           ++ " " ++ Fetch.statusText r))
          end
    end
  else None.

(** The request names no namespace: it has no `favorite_products`
    metafield, or the first one has no namespace or an empty one. *)
Definition names_no_namespace (metafields : list Req.Metafield) : bool :=
  match find (fun m => is_favorite_products (Req.key m)) metafields with
  | Some m =>
      match Req.namespace m with
      | Some ns => negb (Js.truthy ns)
      | None => true
      end
  | None => true
  end.

(** `removedProductHandle` and the two counts of a response, when it has
    them. *)
Definition removal_report (b : Http.Body) : option (string * nat * nat) :=
  match b with
  | Http.RemovedOk a =>
      Some (Removed.removedProductHandle a, Removed.previousFavoritesCount a,
            Removed.currentFavoritesCount a)
  | _ => None
  end.

(** ** The diagnostic read *)

(** The report of a response of the READ-ALL route, when it has one. *)
Definition diagnostic (b : Http.Body) : option Diagnostic.t :=
  match b with
  | Http.DiagnosticOk d => Some d
  | _ => None
  end.

(** `result.data?.customer` *)
Definition data_customer (result : Gql.Result) : option Gql.Customer :=
  match Gql.data result with
  | Some d => Gql.customer d
  | None => None
  end.

(** * Facts and theorems *)

(** ** The primitives on concrete input *)

Example split_ex : Js.split Js.LF ("a" ++ Js.LFs ++ "b" ++ Js.LFs) = ["a"; "b"; ""].
Proof. reflexivity. Qed.

Example parse_quoted :
  parse_lines ("'shoe-1'" ++ Js.LFs ++ String Js.DQ "shoe-2" ++ String Js.DQ "")
  = ["shoe-1"; "shoe-2"].
Proof. reflexivity. Qed.

Example strip_one_quote : Js.strip_quotes (String Js.DQ "") = "".
Proof. reflexivity. Qed.

Example of_nat_ex : Js.of_nat 403 = "403" /\ Js.of_nat 0 = "0".
Proof. split; reflexivity. Qed.

Example includes_ex :
  Js.includes "no protected customer data here" "protected customer data" = true
  /\ Js.includes "protected-customer-data" "protected customer data" = false.
Proof. split; reflexivity. Qed.

(** ** Facts about the string primitives *)

Module JsFacts.

Lemma truthy_iff (s : string) : Js.truthy s = true <-> s <> EmptyString.
Proof.
  unfold Js.truthy. destruct s; simpl; split; intro H0; congruence.
Qed.

Section Split.
Variable sep : ascii.

Lemma split_not_nil (s : string) : Js.split sep s <> [].
Proof.
  induction s as [|c s IH]; simpl; [discriminate|].
  destruct (Ascii.eqb c sep); [discriminate|].
  destruct (Js.split sep s); [contradiction|discriminate].
Qed.

Lemma split_pieces (s p : string) : In p (Js.split sep s) -> occurs sep p = false.
Proof.
  revert p. induction s as [|c s IH]; simpl; intros p Hp.
  - destruct Hp as [<-|[]]. reflexivity.
  - destruct (Ascii.eqb c sep) eqn:E.
    + destruct Hp as [<-|Hp]; [reflexivity|auto].
    + destruct (Js.split sep s) as [|h t] eqn:S.
      * now destruct (split_not_nil s).
      * destruct Hp as [<-|Hp].
        -- simpl. rewrite E. apply IH. now left.
        -- apply IH. now right.
Qed.

Lemma split_no_sep (s : string) : occurs sep s = false -> Js.split sep s = [s].
Proof.
  induction s as [|c s IH]; simpl; intro H0; [reflexivity|].
  apply orb_false_iff in H0 as [E O]. rewrite E, (IH O). reflexivity.
Qed.

Lemma split_app (p s : string) :
  occurs sep p = false ->
  Js.split sep (p ++ String sep s)%string = p :: Js.split sep s.
Proof.
  induction p as [|c p IH]; simpl; intro H0.
  - now rewrite Ascii.eqb_refl.
  - apply orb_false_iff in H0 as [E O]. rewrite E, (IH O). reflexivity.
Qed.

(** Splitting a joined array gives the array back when it is not empty and
    no element holds the separator. *)
Lemma split_join (l : list string) :
  l <> [] ->
  Forall (fun p => occurs sep p = false) l ->
  Js.split sep (Js.join (String sep EmptyString) l) = l.
Proof.
  induction l as [|p l IH]; intros N F; [contradiction|].
  inversion F as [|? ? Hp Hl]; subst.
  destruct l as [|q l].
  - simpl. now apply split_no_sep.
  - change (Js.join (String sep EmptyString) (p :: q :: l))
      with (p ++ String sep (Js.join (String sep EmptyString) (q :: l)))%string.
    rewrite split_app by assumption.
    f_equal. apply IH; [discriminate|assumption].
Qed.

End Split.

(** Trimming and stripping only remove code units. *)

Lemma occurs_trimStart c s : occurs c s = false -> occurs c (Js.trimStart s) = false.
Proof.
  induction s as [|d s IH]; simpl; intro H0; [reflexivity|].
  destruct (Js.is_white_space d); [|exact H0].
  apply orb_false_iff in H0 as [_ O]. auto.
Qed.

Lemma occurs_trimEnd c s : occurs c s = false -> occurs c (Js.trimEnd s) = false.
Proof.
  induction s as [|d s IH]; simpl; intro H0; [reflexivity|].
  apply orb_false_iff in H0 as [E O]. specialize (IH O).
  destruct (Js.trimEnd s) eqn:T.
  - destruct (Js.is_white_space d); simpl; [reflexivity|now rewrite E].
  - simpl in *. now rewrite E, IH.
Qed.

Lemma occurs_strip_leading c s :
  occurs c s = false -> occurs c (Js.strip_leading_quote s) = false.
Proof.
  destruct s as [|d s]; simpl; intro H0; [reflexivity|].
  destruct (Js.is_quote d); [|exact H0].
  now apply orb_false_iff in H0 as [_ O].
Qed.

Lemma occurs_strip_trailing c s :
  occurs c s = false -> occurs c (Js.strip_trailing_quote s) = false.
Proof.
  induction s as [|d s IH]; simpl; intro H0; [reflexivity|].
  apply orb_false_iff in H0 as [E O]. specialize (IH O).
  destruct s as [|e s].
  - destruct (Js.is_quote d); simpl; [reflexivity|now rewrite E].
  - simpl in *. now rewrite E, IH.
Qed.

Lemma occurs_clean c s : occurs c s = false -> occurs c (clean s) = false.
Proof.
  intro H0. unfold clean, Js.strip_quotes, Js.trim.
  now apply occurs_strip_trailing, occurs_strip_leading, occurs_trimEnd,
    occurs_trimStart.
Qed.

(** Cleaning leaves a tidy handle as it is. *)

Lemma trimStart_id s :
  is_edge (first_char s) = false -> Js.trimStart s = s.
Proof.
  destruct s as [|c s]; simpl; [reflexivity|].
  intro H0. apply orb_false_iff in H0 as [-> _]. reflexivity.
Qed.

Lemma trimEnd_id s :
  is_edge (last_char s) = false -> Js.trimEnd s = s.
Proof.
  induction s as [|c s IH]; simpl; [reflexivity|].
  destruct s as [|d s].
  - simpl. intro H0. apply orb_false_iff in H0 as [-> _]. reflexivity.
  - intro H0. rewrite (IH H0). reflexivity.
Qed.

Lemma strip_leading_id s :
  is_edge (first_char s) = false -> Js.strip_leading_quote s = s.
Proof.
  destruct s as [|c s]; simpl; [reflexivity|].
  intro H0. apply orb_false_iff in H0 as [_ ->]. reflexivity.
Qed.

Lemma strip_trailing_id s :
  is_edge (last_char s) = false -> Js.strip_trailing_quote s = s.
Proof.
  induction s as [|c s IH]; simpl; [reflexivity|].
  destruct s as [|d s].
  - simpl. intro H0. apply orb_false_iff in H0 as [_ ->]. reflexivity.
  - intro H0. rewrite (IH H0). reflexivity.
Qed.

Lemma clean_tidy h : tidy h = true -> clean h = h.
Proof.
  unfold tidy. intro H0. apply andb_true_iff in H0 as [F L].
  apply negb_true_iff in F, L.
  unfold clean, Js.strip_quotes, Js.trim.
  now rewrite (trimStart_id _ F), (trimEnd_id _ L), (strip_leading_id _ F),
    (strip_trailing_id _ L).
Qed.

Lemma filter_id {A : Type} (p : A -> bool) (l : list A) :
  (forall x, In x l -> p x = true) -> filter p l = l.
Proof.
  induction l as [|a l IH]; simpl; intro H0; [reflexivity|].
  rewrite (H0 a) by now left. f_equal. apply IH. intros x Hx. apply H0. now right.
Qed.

Lemma map_id_on {A : Type} (f : A -> A) (l : list A) :
  (forall x, In x l -> f x = x) -> map f l = l.
Proof.
  induction l as [|a l IH]; simpl; intro H0; [reflexivity|].
  rewrite (H0 a) by now left. f_equal. apply IH. intros x Hx. apply H0. now right.
Qed.

(** What a parsed line is: not empty, and free of line feeds. *)
Lemma parse_lines_elements value h :
  In h (parse_lines value) -> Js.truthy h = true /\ occurs Js.LF h = false.
Proof.
  unfold parse_lines. intro H0. apply filter_In in H0 as [M T]. split; [exact T|].
  apply in_map_iff in M as [v [<- V]].
  apply occurs_clean. eapply split_pieces. exact V.
Qed.

(** Parsing the encoding of tidy handles gives them back. *)
Lemma parse_lines_encode (l : list string) :
  l <> [] ->
  (forall h, In h l -> Js.truthy h = true /\ occurs Js.LF h = false /\ tidy h = true) ->
  parse_lines (encode l) = l.
Proof.
  intros N H0. unfold parse_lines, encode, Js.LFs.
  rewrite split_join; [|exact N|].
  - rewrite map_id_on.
    + apply filter_id. intros h Hh. now apply H0.
    + intros h Hh. apply clean_tidy. now apply H0.
  - apply Forall_forall. intros h Hh. now apply H0.
Qed.

Lemma encode_truthy (h : string) (l : list string) :
  Js.truthy h = true -> Js.truthy (encode (h :: l)) = true.
Proof.
  intro T. apply truthy_iff in T. apply truthy_iff.
  unfold encode, Js.join. destruct l as [|k l]; simpl; [exact T|].
  destruct h; [now contradiction T|discriminate].
Qed.

End JsFacts.

(** ** Deduplication *)

Module SetFacts.

Lemma array_includes_In (a : list string) (x : string) :
  Js.array_includes a x = true <-> In x a.
Proof.
  unfold Js.array_includes. rewrite existsb_exists. split.
  - intros [y [Hy E]]. apply String.eqb_eq in E. now subst.
  - intro Hx. exists x. split; [exact Hx|apply String.eqb_refl].
Qed.

Lemma array_includes_app (a b : list string) (x : string) :
  Js.array_includes (a ++ b) x = Js.array_includes a x || Js.array_includes b x.
Proof. unfold Js.array_includes. apply existsb_app. Qed.

Lemma filter_filter_comm {A : Type} (p q : A -> bool) (l : list A) :
  filter p (filter q l) = filter q (filter p l).
Proof.
  induction l as [|a l IH]; simpl; [reflexivity|].
  destruct (p a) eqn:P, (q a) eqn:Q; simpl; rewrite ?P, ?Q, IH; reflexivity.
Qed.

Lemma filter_filter_and {A : Type} (p q : A -> bool) (l : list A) :
  filter p (filter q l) = filter (fun x => q x && p x) l.
Proof.
  induction l as [|a l IH]; simpl; [reflexivity|].
  destruct (q a); simpl; [destruct (p a)|]; now rewrite IH.
Qed.

(** Filtering commutes with deduplication. *)
Lemma dedupe_filter (p : string -> bool) (l : list string) :
  dedupe_first_seen (filter p l) = filter p (dedupe_first_seen l).
Proof.
  induction l as [|y l IH]; simpl; [reflexivity|].
  destruct (p y) eqn:P; simpl.
  - rewrite IH. f_equal. apply filter_filter_comm.
  - rewrite IH, filter_filter_comm. symmetry. apply JsFacts.filter_id.
    intros x Hx. apply filter_In in Hx as [_ Px].
    destruct (x =? y) eqn:E; [|reflexivity].
    apply String.eqb_eq in E. subst. congruence.
Qed.

(** The set built by adding [l] to the values [acc] already there. *)
Lemma fold_Set_add (l acc : list string) :
  fold_left Js.Set_add l acc
  = acc ++ dedupe_first_seen (filter (fun y => negb (Js.array_includes acc y)) l).
Proof.
  revert acc. induction l as [|x l IH]; intro acc; simpl.
  - now rewrite app_nil_r.
  - unfold Js.Set_add at 2. destruct (Js.array_includes acc x) eqn:I; simpl.
    + apply IH.
    + rewrite IH, <- app_assoc. simpl. do 2 f_equal.
      rewrite <- dedupe_filter, filter_filter_and. f_equal.
      apply filter_ext. intro y. rewrite array_includes_app. simpl.
      rewrite orb_false_r, negb_orb. reflexivity.
Qed.

Lemma Set_from_dedupe (l : list string) : Js.Set_from l = dedupe_first_seen l.
Proof.
  unfold Js.Set_from. rewrite fold_Set_add. simpl. f_equal.
  apply JsFacts.filter_id. reflexivity.
Qed.

Lemma dedupe_In (l : list string) (h : string) :
  In h (dedupe_first_seen l) <-> In h l.
Proof.
  induction l as [|x l IH]; simpl; [reflexivity|].
  rewrite filter_In, IH. split.
  - intros [E|[Hl _]]; auto.
  - intros [E|Hl]; [now left|].
    destruct (h =? x) eqn:E.
    + apply String.eqb_eq in E. now left.
    + right. now split.
Qed.

Lemma dedupe_NoDup (l : list string) : NoDup (dedupe_first_seen l).
Proof.
  induction l as [|x l IH]; simpl; constructor.
  - rewrite filter_In. intros [_ E]. now rewrite String.eqb_refl in E.
  - now apply NoDup_filter.
Qed.

(** Adding to a set never moves or removes what is in it. *)
Lemma Set_from_app (p q : list string) :
  Js.Set_from (p ++ q)
  = Js.Set_from p
    ++ dedupe_first_seen (filter (fun y => negb (Js.array_includes (Js.Set_from p) y)) q).
Proof.
  unfold Js.Set_from at 1. rewrite fold_left_app. apply fold_Set_add.
Qed.

End SetFacts.

(** ** The wire format, as the specification words it *)

Module WireFacts.

Lemma encode_one_per_line (l : list string) : encode l = one_per_line l.
Proof.
  unfold encode, Js.join, Js.LFs.
  induction l as [|h [|k l] IH]; [reflexivity|reflexivity|].
  change (String.concat (String Js.LF EmptyString) (h :: k :: l))
    with (h ++ String Js.LF (String.concat (String Js.LF EmptyString) (k :: l)))%string.
  rewrite IH. reflexivity.
Qed.

Lemma one_per_line_truthy (h : string) (l : list string) :
  Js.truthy h = true -> one_per_line (h :: l) <> EmptyString.
Proof.
  intro T. rewrite <- encode_one_per_line.
  apply JsFacts.truthy_iff. now apply JsFacts.encode_truthy.
Qed.

Lemma split_one_per_line (l : list string) :
  l <> [] ->
  (forall h, In h l -> occurs Js.LF h = false) ->
  Js.split Js.LF (one_per_line l) = l.
Proof.
  intros N F. rewrite <- encode_one_per_line. unfold encode, Js.LFs.
  apply JsFacts.split_join; [exact N|]. now apply Forall_forall.
Qed.

End WireFacts.

(** ** A fact about `find` *)

Lemma find_none_existsb {A : Type} (p : A -> bool) (l : list A) :
  find p l = None -> existsb p l = false.
Proof.
  induction l as [|a l IH]; simpl; [reflexivity|].
  destruct (p a); [discriminate|exact IH].
Qed.

(** ** Running the handlers symbolically *)

(** One case split on what the handler inspects next. *)
Ltac exec_step H :=
  match type of H with
  | context [match ?x with _ => _ end] =>
      lazymatch x with
      | context [match _ with _ => _ end] => fail
      | _ => idtac
      end;
      first [ is_var x; destruct x
            | let E := fresh "E" in destruct x eqn:E; rewrite ?E in H ]
  end;
  simpl in H.

Ltac exec_handler H :=
  unfold run, action, UpdateMetafields.action, RemoveMetafields.action,
    try_catch, bind, ret, throw, await, await_fetch, await_findSessionsByShop,
    required in H;
  simpl in H;
  repeat exec_step H.

(** Where an exchange stands in a trace that is known call by call. *)
Ltac trace_cases H :=
  repeat match type of H with
         | [] = _ ++ _ :: _ => destruct (app_cons_not_nil _ _ _ H)
         | _ :: _ = ?pre ++ _ :: _ =>
             destruct pre; simpl in H;
             [ injection H as ? ?; subst | injection H as ? H; subst ]
         end.

Ltac use_equations :=
  repeat match goal with
         | E : ?t = _, H : context [?t] |- _ => rewrite E in H
         end.

Ltac unfold_negb :=
  repeat match goal with
         | E : negb _ = false |- _ => apply negb_false_iff in E
         | E : negb _ = true |- _ => apply negb_true_iff in E
         end.

Ltac denial_case :=
  unfold accessDeniedError in *; unfold_negb;
  use_equations; simpl in *;
  try discriminate;
  repeat match goal with
         | R : Some _ = Some _ |- _ => injection R as R; subst
         end;
  try match goal with
      | F : find is_access_denied ?l = None,
        D : existsb is_access_denied ?l = true |- _ =>
          rewrite (find_none_existsb _ _ F) in D; discriminate D
      end;
  try match goal with
      | F : find is_access_denied ?l = Some ?e |- _ =>
          repeat split; exists e; split; [exact F|reflexivity]
      end.

Ltac tidy_up :=
  repeat match goal with
         | H : Normal _ = Normal _ |- _ => injection H as H; try subst
         | H : Some _ = Some _ |- _ => injection H as H; try subst
         | H : Throw _ = Normal _ |- _ => discriminate H
         | H : Normal _ = Throw _ |- _ => discriminate H
         | H : None = Some _ |- _ => discriminate H
         | H : Some _ = None |- _ => discriminate H
         end.

Arguments UpdateMetafields.allNewFavorites : simpl never.

(** ** The codec and the merge *)

Example decode_twice_quoted :
  UpdateMetafields.decode (Some twice_quoted) = [String Js.DQ ("a" ++ String Js.DQ "")]
  /\ UpdateMetafields.decode
       (Some (encode (UpdateMetafields.decode (Some twice_quoted)))) = ["a"].
Proof. split; reflexivity. Qed.

(** Trimming comes before the quotes are stripped, so white space inside
    the quotes survives the first decoding and not the second. *)
Example decode_padded_in_quotes :
  UpdateMetafields.decode (Some "' a '") = [" a "]
  /\ UpdateMetafields.decode
       (Some (encode (UpdateMetafields.decode (Some "' a '")))) = ["a"].
Proof. split; reflexivity. Qed.

(** C2, as stated, fails: a line wrapped in two pairs of quotes decodes to a
    handle that still carries one pair, and decoding the encoding of that
    handle strips the second pair, so the two sets of handles differ. *)
Lemma decode_not_idempotent :
  ~ same_set
      (UpdateMetafields.decode
         (Some (encode (UpdateMetafields.decode (Some twice_quoted)))))
      (UpdateMetafields.decode (Some twice_quoted)).
Proof.
  intro S. destruct (S "a") as [S1 _].
  assert (I : In "a" (UpdateMetafields.decode (Some twice_quoted)))
    by (apply S1; now left).
  destruct I as [E|[]]. discriminate E.
Qed.

(** C2, amended: when no decoded handle begins or ends with white space or a
    quote, decoding the encoding of the decoded handles gives the same
    handles, in the same order. *)
Theorem decode_encode_decode (x : string) :
  (forall h, In h (UpdateMetafields.decode (Some x)) -> tidy h = true) ->
  UpdateMetafields.decode (Some (encode (UpdateMetafields.decode (Some x))))
  = UpdateMetafields.decode (Some x).
Proof.
  intro T.
  assert (E : forall h, In h (UpdateMetafields.decode (Some x)) ->
                        Js.truthy h = true /\ occurs Js.LF h = false).
  { intros h Hh. simpl in Hh. destruct (Js.truthy x); [|contradiction].
    now apply JsFacts.parse_lines_elements in Hh. }
  destruct (UpdateMetafields.decode (Some x)) as [|h l] eqn:D; [reflexivity|].
  simpl. rewrite JsFacts.encode_truthy by (apply E; now left).
  apply JsFacts.parse_lines_encode; [discriminate|].
  intros k Hk. destruct (E k Hk). auto.
Qed.

Lemma decode_encode_decode_witness :
  let x := Sample.lines ["'shoe-1'"; " shoe-2 "] in
  UpdateMetafields.decode (Some (encode (UpdateMetafields.decode (Some x))))
  = ["shoe-1"; "shoe-2"].
Proof.
  apply (decode_encode_decode (Sample.lines ["'shoe-1'"; " shoe-2 "])).
  intros h [<-|[<-|[]]]; reflexivity.
Defined.

(** The merge of the handler is the deduplication as the specification
    words it, for every current list and every list of candidates. *)
Lemma mergedFavorites_dedupe (current incoming : list string) :
  UpdateMetafields.mergedFavorites current incoming
  = dedupe_first_seen (current ++ incoming).
Proof. unfold UpdateMetafields.mergedFavorites. apply SetFacts.Set_from_dedupe. Qed.

(** C8: on the ADD path, once the read has passed the access check, the
    merged list is the deduplication of the current list followed by the
    incoming candidates, every handle at the place of its first occurrence.
    It is what the handler goes on with: when it is empty the handler
    answers 400 and writes nothing; otherwise the next call is the
    `metafieldsSet` whose value is the merged list, one handle per line; and
    a response of success carries it as `allFavorites`. The function that
    merges equals the deduplication for all lists, and for current [a, b]
    and incoming [b, c] the merged list is [a, b, c]. *)
Theorem merged_is_first_seen_dedupe {W : Type} {P : Platform W}
    (request : Req.t) (body : Req.Body) (metafields : list Req.Metafield) (w : W)
    (x : Fetch.Exchange) (rest : Trace) (r0 : Fetch.Response) (result : Gql.Result) :
  Req.json request = Req.Object body ->
  Req.metafields body = Some metafields ->
  trace (run (action api_update_metafields request) w) = x :: rest ->
  Fetch.outcome x = Normal r0 ->
  Fetch.json r0 = Normal result ->
  accessDeniedError (Gql.errors result) = None ->
  let current := UpdateMetafields.currentFavorites (Gql.data_customer_metafield result) in
  let incoming := UpdateMetafields.allNewFavorites metafields in
  let merged := dedupe_first_seen (current ++ incoming) in
  let r := run (action api_update_metafields request) w in
  (merged = [] -> rest = [] /\ Http.status (response r) = 400)
  /\ (merged <> [] ->
        exists y rest' input,
          rest = y :: rest'
          /\ Fetch.operation (Fetch.request y) = Fetch.metafieldsSet [input]
          /\ Fetch.value input = one_per_line merged)
  /\ (Http.success (Http.body (response r)) = Some true ->
        allFavorites (Http.body (response r)) = Some merged)
  /\ (forall c i, UpdateMetafields.mergedFavorites c i = dedupe_first_seen (c ++ i))
  /\ NoDup merged
  /\ (forall h, In h merged <-> In h current \/ In h incoming)
  /\ UpdateMetafields.mergedFavorites ["a"; "b"] ["b"; "c"] = ["a"; "b"; "c"].
Proof.
  intros J Mf T O B D current incoming merged r.
  split; [|split; [|split; [|split; [|split; [|split]]]]].
  4: exact mergedFavorites_dedupe.
  4: apply SetFacts.dedupe_NoDup.
  4: intro h; unfold merged; now rewrite SetFacts.dedupe_In, in_app_iff.
  4: reflexivity.
  all: subst r merged current incoming.
  all: rewrite <- mergedFavorites_dedupe.
  all: destruct request as [method json]; simpl in J; subst json.
  all: destruct body as [cid shop mfs ph]; simpl in Mf; subst mfs.
  all: remember (run (action api_update_metafields _) w) as r eqn:Er.
  all: exec_handler Er; subst r; simpl in T; try discriminate T.
  all: injection T as <- <-; simpl in O;
    repeat (progress (tidy_up; use_equations)).
  all: try (unfold accessDeniedError in *; congruence).
  all: simpl.
  all: try (intros _; split; reflexivity).
  all: try (intro X; discriminate X).
  all: try (intros _; reflexivity).
  all: try (intros _; do 3 eexists; split; [reflexivity|]; split; [reflexivity|];
            simpl; apply WireFacts.encode_one_per_line).
  all: try match goal with
           | E : (length ?l =? 0)%nat = true |- _ <> [] -> _ =>
               intro N; apply Nat.eqb_eq in E; destruct l;
               [now contradiction N|discriminate E]
           end.
  all: match goal with
       | E : (length ?l =? 0)%nat = false |- _ = [] -> _ =>
           intro N; rewrite N in E; discriminate E
       end.
Qed.

Lemma merged_is_first_seen_dedupe_witness :
  let metafields := [Sample.favorite (Req.Str (Sample.lines ["b"; "c"]))] in
  let request := Sample.add (Some Sample.customer) (Some "demo") (Some metafields) in
  let field := Sample.stored "gid://shopify/Metafield/9" (Sample.lines ["a"; "b"]) in
  let read := Sample.ok_json (Sample.field_result (Some field)) in
  let w := Sample.world [read; Sample.ok_json (Sample.set_result [field]); read] in
  let r := run (action api_update_metafields request) w in
  (exists y rest' input,
     trace r = {| Fetch.request :=
                    {| Fetch.url := graphqlUrl (shopDomain "demo");
                       Fetch.accessToken := "shpat_token";
                       Fetch.operation :=
                         Fetch.getMetafieldQuery Sample.customer "favorites" |};
                  Fetch.outcome := read |} :: y :: rest'
     /\ Fetch.operation (Fetch.request y) = Fetch.metafieldsSet [input]
     /\ Fetch.value input = one_per_line ["a"; "b"; "c"])
  /\ allFavorites (Http.body (response r)) = Some ["a"; "b"; "c"].
Proof.
  intros metafields request field read w r.
  destruct (merged_is_first_seen_dedupe (P := scripted) request
              {| Req.customerId := Some Sample.customer; Req.shop := Some "demo";
                 Req.metafields := Some metafields; Req.productHandle := None |}
              metafields w
              {| Fetch.request :=
                   {| Fetch.url := graphqlUrl (shopDomain "demo");
                      Fetch.accessToken := "shpat_token";
                      Fetch.operation :=
                        Fetch.getMetafieldQuery Sample.customer "favorites" |};
                 Fetch.outcome := read |}
              _
              {| Fetch.status := 200; Fetch.statusText := "OK";
                 Fetch.text := Normal "";
                 Fetch.json := Normal (Sample.field_result (Some field)) |}
              (Sample.field_result (Some field))
              eq_refl eq_refl eq_refl eq_refl eq_refl eq_refl)
    as [_ [Wr [Al _]]].
  split.
  - destruct (Wr ltac:(discriminate)) as [y [rest' [input [R [Op V]]]]].
    exists y, rest', input. split; [|split; [exact Op|exact V]].
    simpl in R. simpl. now rewrite R.
  - exact (Al eq_refl).
Defined.


(** ** Validation of the request *)

(** C5, as stated, fails: an ADD request without `customerId` is answered
    with HTTP 500, not 400. *)
Lemma missing_customerId_is_not_400 :
  let body :=
    {| Req.customerId := None; Req.shop := Some "demo";
       Req.metafields := Some [Sample.favorite (Req.Str "shoe-1")];
       Req.productHandle := None |} in
  let request := {| Req.method := "POST"; Req.json := Req.Object body |} in
  let r := run (action api_update_metafields request) (Sample.world []) in
  missing_required_field api_update_metafields body = true
  /\ Http.status (response r) = 500
  /\ Http.status (response r) <> 400
  /\ Http.body (response r) = Http.Failure "Missing required field: customerId".
Proof. repeat split. discriminate. Qed.

(** C5, amended: a request (other than an OPTIONS preflight) whose body
    misses a required field is answered with `success: false`, the message
    of the first check that fails, in the order of the handler, and HTTP
    500, the status of the handler's `catch`; a body that is `null` or is
    not JSON is answered likewise, with the message of the engine's type
    error or the message for a body that is not JSON. In all these cases no
    call to the store is made and the world is left as it was. *)
Theorem missing_field_is_reported {W : Type} {P : Platform W}
    (route : Route) (request : Req.t) (w : W) :
  Req.method request <> "OPTIONS" ->
  let r := run (action route request) w in
  let reported error :=
    trace r = []
    /\ world_after r = w
    /\ response r = Http.json (Http.Failure error) 500
    /\ Http.success (Http.body (response r)) = Some false in
  (forall body,
     Req.json request = Req.Object body ->
     missing_required_field route body = true ->
     exists error,
       failed_check route body = Some error
       /\ In error (validation_messages route)
       /\ reported error)
  /\ (Req.json request = Req.Null -> reported (error_text destructuring_null))
  /\ (Req.json request = Req.Invalid -> reported "Invalid request body. Expected JSON.").
Proof.
  intros O r reported. subst r reported. apply String.eqb_neq in O.
  split; [|split].
  - intros body J Mi.
    destruct body as [customerId shop metafields productHandle].
    destruct route; unfold missing_required_field, failed_check, checks, absent in *;
      simpl in Mi;
      unfold run, action, UpdateMetafields.action, RemoveMetafields.action,
        try_catch, bind, ret, throw, required;
      rewrite O, J; simpl.
    + destruct customerId as [c|]; [destruct (Js.truthy c)|]; simpl in *;
        [destruct shop as [s|]; [destruct (Js.truthy s)|];
         simpl in *; [destruct metafields as [[|m ms]|]; [|discriminate|]|..]
        |..];
        (eexists; split; [reflexivity|]; split; [simpl; tauto|repeat split]).
    + destruct customerId as [c|]; [destruct (Js.truthy c)|]; simpl in *;
        [destruct productHandle as [p|]; [destruct (Js.truthy p)|];
         simpl in *; [destruct shop as [s|]; [destruct (Js.truthy s)|];
                      simpl in *; [discriminate|..]|..]
        |..];
        (eexists; split; [reflexivity|]; split; [simpl; tauto|repeat split]).
  - intro J.
    destruct route;
      unfold run, action, UpdateMetafields.action, RemoveMetafields.action,
        try_catch, bind, ret, throw;
      rewrite O, J; simpl; repeat split.
  - intro J.
    destruct route;
      unfold run, action, UpdateMetafields.action, RemoveMetafields.action,
        try_catch, bind, ret, throw;
      rewrite O, J; simpl; repeat split.
Qed.

Lemma missing_field_is_reported_witness :
  let body :=
    {| Req.customerId := Some Sample.customer; Req.shop := None;
       Req.metafields := None; Req.productHandle := None |} in
  let request := {| Req.method := "POST"; Req.json := Req.Object body |} in
  let r := run (action api_remove_metafields request) (Sample.world []) in
  failed_check api_remove_metafields body = Some "Missing required field: productHandle"
  /\ response r = Http.json (Http.Failure "Missing required field: productHandle") 500
  /\ trace r = [].
Proof.
  intros body request r.
  destruct (proj1 (missing_field_is_reported (P := scripted) api_remove_metafields
                     request (Sample.world []) ltac:(discriminate))
                  body eq_refl eq_refl)
    as [error [F [_ [T [_ [R _]]]]]].
  injection F as <-.
  split; [reflexivity|]. split; [exact R|exact T].
Defined.

(** ** Access-policy errors *)

(** C1, amended: on an ADD or a REMOVE, when the error list that the handler
    obtains from the read or from the write holds an entry whose code is
    ACCESS_DENIED and whose message contains `protected customer data`,
    whatever else the list holds, the answer is the fixed access-policy
    response (`success: false`, HTTP 403) built from the first such entry,
    and no call to the store follows the exchange that reported it: a denial
    on the read is followed by no write. *)
Theorem access_denied_short_circuits {W : Type} {P : Platform W}
    (route : Route) (request : Req.t) (w : W)
    (pre post : Trace) (x : Fetch.Exchange) (errors : list Gql.Error) :
  trace (run (action route request) w) = pre ++ x :: post ->
  reported_errors x = Some errors ->
  existsb is_access_denied errors = true ->
  post = []
  /\ Http.status (response (run (action route request) w)) = 403
  /\ Http.success (Http.body (response (run (action route request) w))) = Some false
  /\ exists e, find is_access_denied errors = Some e
               /\ response (run (action route request) w) = access_denied e.
Proof.
  intros T R D.
  remember (run (action route request) w) as r eqn:Er.
  destruct route; exec_handler Er; subst r; simpl in T; trace_cases T.
  all: unfold reported_errors in R; simpl in R; try discriminate R.
  all: try (unfold RemoveMetafields.mutation in R;
            destruct (Nat.eqb _ _) in R; simpl in R).
  all: denial_case.
Qed.

Lemma access_denied_short_circuits_witness :
  let denied :=
    {| Gql.code := Some "ACCESS_DENIED";
       Gql.message := "Access denied: this app is not approved for protected customer data." |} in
  let other := {| Gql.code := Some "THROTTLED"; Gql.message := "Throttled" |} in
  let request := Sample.remove (Some Sample.customer) (Some "shoe-1") (Some "demo") in
  let w := Sample.world [Sample.ok_json (Sample.errors_result [other; denied])] in
  Http.status (response (run (action api_remove_metafields request) w)) = 403
  /\ length (trace (run (action api_remove_metafields request) w)) = 1.
Proof.
  intros denied other request w. split; [|reflexivity].
  exact (proj1 (proj2 (access_denied_short_circuits (P := scripted)
                         api_remove_metafields request w [] []
                         {| Fetch.request :=
                              {| Fetch.url := graphqlUrl (shopDomain "demo");
                                 Fetch.accessToken := "shpat_token";
                                 Fetch.operation :=
                                   Fetch.getMetafieldQuery Sample.customer "favorite" |};
                            Fetch.outcome :=
                              Sample.ok_json (Sample.errors_result [other; denied]) |}
                         [other; denied] eq_refl eq_refl eq_refl))).
Defined.

(** The same on the write of an ADD: the denial is found behind another
    error, and no verification read follows. *)
Example access_denied_on_write :
  let denied :=
    {| Gql.code := Some "ACCESS_DENIED";
       Gql.message := "Access denied: this app is not approved for protected customer data." |} in
  let other := {| Gql.code := None; Gql.message := "Internal error" |} in
  let request :=
    Sample.add (Some Sample.customer) (Some "demo")
               (Some [Sample.favorite (Req.Str "shoe-1")]) in
  let w := Sample.world [Sample.ok_json (Sample.field_result None);
                         Sample.ok_json (Sample.errors_result [other; denied])] in
  let r := run (action api_update_metafields request) w in
  response r = access_denied denied
  /\ map (fun x => Fetch.is_mutation (Fetch.operation (Fetch.request x))) (trace r)
     = [false; true].
Proof. split; reflexivity. Qed.

(** C1, as stated, fails: on a read that reports an error whose code is
    ACCESS_DENIED but whose message does not hold the words `protected
    customer data` (here, the denial for a missing access scope), the ADD
    route does not answer with the access-policy response; it goes on,
    writes, and reports success. *)
Lemma access_denied_code_alone_is_ignored :
  let denied :=
    {| Gql.code := Some "ACCESS_DENIED";
       Gql.message := "Access denied for customer field. Required access: `read_customers` access scope." |} in
  let request :=
    Sample.add (Some Sample.customer) (Some "demo")
               (Some [Sample.favorite (Req.Str "shoe-1")]) in
  let w := Sample.world [Sample.ok_json (Sample.errors_result [denied]);
                         Sample.ok_json (Sample.set_result []);
                         Sample.ok_json (Sample.field_result None)] in
  let r := run (action api_update_metafields request) w in
  existsb has_access_denied_code [denied] = true
  /\ Http.status (response r) <> 403
  /\ Http.status (response r) = 200
  /\ Http.success (Http.body (response r)) = Some true
  /\ map (fun x => Fetch.is_mutation (Fetch.operation (Fetch.request x))) (trace r)
     = [false; true; false].
Proof. repeat split. discriminate. Qed.

(** ** ADD without incoming handles *)

(** C3, as stated, fails: when the store already holds a list, an ADD whose
    only incoming value is blank decodes no handle, yet the merged list is
    the stored one, so the handler calls the write mutation and reports
    success. *)
Lemma blank_add_rewrites_stored_list :
  let metafields := [Sample.favorite (Req.Str "   ")] in
  let request := Sample.add (Some Sample.customer) (Some "demo") (Some metafields) in
  let w := Sample.world
             [Sample.ok_json
                (Sample.field_result (Some (Sample.stored "gid://shopify/Metafield/9" "a")));
              Sample.ok_json (Sample.set_result []);
              Sample.ok_json (Sample.field_result None)] in
  let r := run (action api_update_metafields request) w in
  UpdateMetafields.allNewFavorites metafields = []
  /\ map (fun x => Fetch.operation (Fetch.request x)) (trace r)
     = [Fetch.getMetafieldQuery Sample.customer "favorites";
        Fetch.metafieldsSet (UpdateMetafields.variables Sample.customer "favorites" ["a"]);
        Fetch.verifyQuery Sample.customer "favorites"]
  /\ Http.status (response r) <> 400
  /\ Http.success (Http.body (response r)) = Some true.
Proof. repeat split. discriminate. Qed.

(** C3, amended: for an ADD request whose incoming values decode to no
    handle, once the read has given the current list: when that list is
    empty too, the answer is the validation error with HTTP 400 and the
    read is the only call to the store; when it is not, the handler calls the
    write mutation with the current list, deduplicated. *)
Theorem add_without_handles {W : Type} {P : Platform W}
    (request : Req.t) (body : Req.Body) (customerId : string)
    (metafields : list Req.Metafield) (w : W)
    (x : Fetch.Exchange) (rest : Trace) (r0 : Fetch.Response) (result : Gql.Result) :
  Req.json request = Req.Object body ->
  Req.customerId body = Some customerId ->
  Req.metafields body = Some metafields ->
  UpdateMetafields.allNewFavorites metafields = [] ->
  trace (run (action api_update_metafields request) w) = x :: rest ->
  Fetch.outcome x = Normal r0 ->
  Fetch.json r0 = Normal result ->
  accessDeniedError (Gql.errors result) = None ->
  let currentFavorites :=
    UpdateMetafields.currentFavorites (Gql.data_customer_metafield result) in
  let r := run (action api_update_metafields request) w in
  (currentFavorites = [] ->
     rest = []
     /\ Fetch.is_mutation (Fetch.operation (Fetch.request x)) = false
     /\ Http.status (response r) = 400
     /\ Http.body (response r)
        = Http.NoValidHandles "No valid product handles found after processing"
                              metafields [])
  /\ (currentFavorites <> [] ->
        exists y rest',
          rest = y :: rest'
          /\ Fetch.operation (Fetch.request y)
             = Fetch.metafieldsSet
                 (UpdateMetafields.variables
                    customerId (UpdateMetafields.metafieldNamespace metafields)
                    (dedupe_first_seen currentFavorites))).
Proof.
  intros J C Mf N T O B D current r. subst r current.
  destruct request as [method json]; simpl in J; subst json.
  destruct body as [cid shop mfs ph]; simpl in C, Mf; subst cid mfs.
  remember (run (action api_update_metafields _) w) as r eqn:Er.
  exec_handler Er; subst r; simpl in T; try discriminate T.
  all: injection T as <- <-; simpl in O; tidy_up; use_equations; tidy_up.
  all: try (unfold accessDeniedError in *; congruence).
  all: simpl; rewrite N in *.
  all: unfold UpdateMetafields.mergedFavorites in *; rewrite app_nil_r in *;
    rewrite SetFacts.Set_from_dedupe in *.
  all: split; intro Cur.
  all: try (rewrite Cur in *; simpl in *; discriminate).
  all: try (repeat split; reflexivity).
  all: try (do 2 eexists; split; reflexivity).
  all: destruct (UpdateMetafields.currentFavorites _);
    [now contradiction Cur|discriminate].
Qed.

Lemma add_without_handles_witness :
  let metafields := [Sample.favorite (Req.Str "   ")] in
  let request := Sample.add (Some Sample.customer) (Some "demo") (Some metafields) in
  let w := Sample.world [Sample.ok_json (Sample.field_result None)] in
  Http.status (response (run (action api_update_metafields request) w)) = 400
  /\ length (trace (run (action api_update_metafields request) w)) = 1.
Proof.
  intros metafields request w. split; [|reflexivity].
  refine (proj1 (proj2 (proj2 (proj1
    (add_without_handles (P := scripted)
       request
       {| Req.customerId := Some Sample.customer; Req.shop := Some "demo";
          Req.metafields := Some metafields; Req.productHandle := None |}
       Sample.customer metafields w
       {| Fetch.request :=
            {| Fetch.url := graphqlUrl (shopDomain "demo");
               Fetch.accessToken := "shpat_token";
               Fetch.operation := Fetch.getMetafieldQuery Sample.customer "favorites" |};
          Fetch.outcome := Sample.ok_json (Sample.field_result None) |}
       []
       {| Fetch.status := 200; Fetch.statusText := "OK";
          Fetch.text := Normal ""; Fetch.json := Normal (Sample.field_result None) |}
       (Sample.field_result None)
       eq_refl eq_refl eq_refl eq_refl eq_refl eq_refl eq_refl eq_refl) eq_refl)))).
Defined.

(** ** The verification read *)

(** C4, as stated, fails: when the verification read of an ADD is rejected
    (a transport failure) after a write that succeeded, the handler answers
    with `success: false` and HTTP 500. *)
Lemma failed_verification_is_reported :
  let request :=
    Sample.add (Some Sample.customer) (Some "demo")
               (Some [Sample.favorite (Req.Str "shoe-1")]) in
  let w := Sample.world [Sample.ok_json (Sample.field_result None);
                         Sample.ok_json (Sample.set_result []);
                         Throw {| exn_name := "TypeError"; exn_message := "fetch failed" |}] in
  let r := run (action api_update_metafields request) w in
  map (write_succeeded api_update_metafields) (trace r) = [false; true; false]
  /\ Http.success (Http.body (response r)) = Some false
  /\ Http.status (response r) = 500.
Proof. repeat split. Qed.

(** C4, amended: after a write that succeeded the handler issues the
    verification read and nothing else; when the response to it has a body
    that parses, whatever its HTTP status and its content, the handler
    answers with success, HTTP 200 and that body as `verificationResult`;
    when the read is rejected or its body does not parse, the `catch` of the
    handler answers with HTTP 500. *)
Theorem verification_after_write {W : Type} {P : Platform W}
    (route : Route) (request : Req.t) (w : W)
    (pre post : Trace) (y : Fetch.Exchange) :
  trace (run (action route request) w) = pre ++ y :: post ->
  write_succeeded route y = true ->
  let r := run (action route request) w in
  exists v,
    post = [v]
    /\ is_verify (Fetch.operation (Fetch.request v)) = true
    /\ match parsed_body v with
       | Some result =>
           Http.status (response r) = 200
           /\ Http.success (Http.body (response r)) = Some true
           /\ verificationResult (Http.body (response r)) = Some result
       | None =>
           Http.status (response r) = 500
           /\ Http.success (Http.body (response r)) = Some false
       end.
Proof.
  intros T S r. subst r.
  remember (run (action route request) w) as r eqn:Er.
  destruct route; exec_handler Er; subst r; simpl in T; trace_cases T.
  all: unfold write_succeeded in S; simpl in S; try discriminate S.
  all: try (unfold RemoveMetafields.mutation in S;
            destruct (Nat.eqb _ _) in S; simpl in S).
  all: unfold_negb; use_equations; simpl in S; try discriminate S.
  all: try match goal with
           | A : (0 <? ?n)%nat = true, B : (?n =? 0)%nat = true |- _ =>
               apply Nat.ltb_lt in A; apply Nat.eqb_eq in B; lia
           end.
  all: eexists; split; [reflexivity|]; split; [reflexivity|];
    unfold parsed_body; simpl;
    repeat match goal with
           | E : Fetch.json ?a = _ |- context [Fetch.json ?a] => rewrite E
           end;
    repeat split.
Qed.

Lemma verification_after_write_witness :
  let request := Sample.remove (Some Sample.customer) (Some "a") (Some "demo") in
  let unavailable : Completion Fetch.Response :=
    Normal {| Fetch.status := 503; Fetch.statusText := "Service Unavailable";
              Fetch.text := Normal "";
              Fetch.json := Normal (Sample.errors_result []) |} in
  let w := Sample.world
             [Sample.ok_json
                (Sample.field_result (Some (Sample.stored "gid://shopify/Metafield/9" "a")));
              Sample.ok_json (Sample.delete_result "gid://shopify/Metafield/9");
              unavailable] in
  Http.success (Http.body (response (run (action api_remove_metafields request) w)))
  = Some true.
Proof.
  intros request unavailable w.
  destruct (verification_after_write (P := scripted)
              api_remove_metafields request w
              [ {| Fetch.request :=
                     {| Fetch.url := graphqlUrl (shopDomain "demo");
                        Fetch.accessToken := "shpat_token";
                        Fetch.operation :=
                          Fetch.getMetafieldQuery Sample.customer "favorite" |};
                   Fetch.outcome :=
                     Sample.ok_json
                       (Sample.field_result
                          (Some (Sample.stored "gid://shopify/Metafield/9" "a"))) |} ]
              [ {| Fetch.request :=
                     {| Fetch.url := graphqlUrl (shopDomain "demo");
                        Fetch.accessToken := "shpat_token";
                        Fetch.operation :=
                          Fetch.verifyQuery Sample.customer "favorite" |};
                   Fetch.outcome := unavailable |} ]
              {| Fetch.request :=
                   {| Fetch.url := graphqlUrl (shopDomain "demo");
                      Fetch.accessToken := "shpat_token";
                      Fetch.operation :=
                        Fetch.metafieldDelete "gid://shopify/Metafield/9" |};
                 Fetch.outcome :=
                   Sample.ok_json (Sample.delete_result "gid://shopify/Metafield/9") |}
              eq_refl eq_refl) as [v [_ _]].
  reflexivity.
Defined.

(** ** REMOVE *)

Lemma updatedFavorites_removes_all (currentFavorites : list string) (productHandle : string) :
  ~ In productHandle (RemoveMetafields.updatedFavorites currentFavorites productHandle).
Proof.
  unfold RemoveMetafields.updatedFavorites. rewrite filter_In.
  intros [_ E]. now rewrite String.eqb_refl in E.
Qed.

Lemma updatedFavorites_keeps_others (currentFavorites : list string)
    (productHandle h : string) :
  h <> productHandle ->
  count_occ string_dec (RemoveMetafields.updatedFavorites currentFavorites productHandle) h
  = count_occ string_dec currentFavorites h.
Proof.
  intro N. unfold RemoveMetafields.updatedFavorites.
  induction currentFavorites as [|k l IH]; simpl; [reflexivity|].
  destruct (k =? productHandle) eqn:E; simpl.
  - apply String.eqb_eq in E. subst k.
    destruct (string_dec productHandle h); [congruence|exact IH].
  - destruct (string_dec k h); now rewrite IH.
Qed.

(** The comparison is exact: a handle that differs in case stays. *)
Example updatedFavorites_exact_match :
  RemoveMetafields.updatedFavorites ["Shoe"; "shoe"; "hat"; "shoe"] "shoe" = ["Shoe"; "hat"].
Proof. reflexivity. Qed.

Lemma updatedFavorites_truthy (value productHandle h : string) :
  In h (RemoveMetafields.updatedFavorites (parse_lines value) productHandle) ->
  Js.truthy h = true.
Proof.
  unfold RemoveMetafields.updatedFavorites. rewrite filter_In. intros [I _].
  now apply JsFacts.parse_lines_elements in I.
Qed.

(** C6: for a REMOVE of a handle that is in the decoded list, every
    occurrence of the handle is removed and every other handle stays as
    often as it was; the handler then issues exactly one mutation: the
    delete of the field by its id when nothing remains, and otherwise the
    set of the remaining list, written one handle per line, a value that is
    not the empty string and that splits at the line feeds into the
    remaining list; and a response of success carries the remaining list
    and a `deleted` flag that is true exactly when nothing remains. *)
Theorem remove_present_handle {W : Type} {P : Platform W}
    (request : Req.t) (body : Req.Body) (customerId productHandle : string) (w : W)
    (x : Fetch.Exchange) (rest : Trace) (r0 : Fetch.Response) (result : Gql.Result)
    (existingMetafield : Gql.Metafield) :
  Req.json request = Req.Object body ->
  Req.customerId body = Some customerId ->
  Req.productHandle body = Some productHandle ->
  trace (run (action api_remove_metafields request) w) = x :: rest ->
  Fetch.outcome x = Normal r0 ->
  Fetch.json r0 = Normal result ->
  accessDeniedError (Gql.errors result) = None ->
  Gql.data_customer_metafield result = Some existingMetafield ->
  Js.truthy (Gql.value existingMetafield) = true ->
  In productHandle (parse_lines (Gql.value existingMetafield)) ->
  let currentFavorites := parse_lines (Gql.value existingMetafield) in
  let remaining := RemoveMetafields.updatedFavorites currentFavorites productHandle in
  let r := run (action api_remove_metafields request) w in
  ~ In productHandle remaining
  /\ (forall h, h <> productHandle ->
        count_occ string_dec remaining h = count_occ string_dec currentFavorites h)
  /\ (remaining <> [] ->
        one_per_line remaining <> EmptyString
        /\ Js.split Js.LF (one_per_line remaining) = remaining)
  /\ Fetch.operation (Fetch.request x) = Fetch.getMetafieldQuery customerId "favorite"
  /\ (exists y rest',
        rest = y :: rest'
        /\ Fetch.operation (Fetch.request y)
           = match remaining with
             | [] => Fetch.metafieldDelete (Gql.id existingMetafield)
             | _ :: _ =>
                 Fetch.metafieldsSet
                   [ {| Fetch.ownerId := customerId;
                        Fetch.namespace := "favorite";
                        Fetch.key := "favorite_products";
                        Fetch.type := "multi_line_text_field";
                        Fetch.value := one_per_line remaining |} ]
             end
        /\ forall z, In z rest' ->
             Fetch.is_mutation (Fetch.operation (Fetch.request z)) = false)
  /\ (Http.success (Http.body (response r)) = Some true ->
        remainingFavorites (Http.body (response r)) = Some remaining
        /\ deleted (Http.body (response r))
           = Some match remaining with [] => true | _ :: _ => false end).
Proof.
  intros J C Ph T O B D F V I current remaining r. subst r.
  split; [apply updatedFavorites_removes_all|].
  split; [intros h N; now apply updatedFavorites_keeps_others|].
  split.
  { intro N. split.
    - destruct remaining as [|h l] eqn:R; [now contradiction N|].
      apply WireFacts.one_per_line_truthy.
      apply (updatedFavorites_truthy (Gql.value existingMetafield) productHandle).
      fold current. fold remaining. rewrite R. now left.
    - apply WireFacts.split_one_per_line; [exact N|].
      intros h Hh. unfold remaining, RemoveMetafields.updatedFavorites in Hh.
      apply filter_In in Hh as [Hh _].
      now apply JsFacts.parse_lines_elements in Hh. }
  apply SetFacts.array_includes_In in I.
  assert (X : match remaining with
              | [] => Fetch.metafieldDelete (Gql.id existingMetafield)
              | _ :: _ =>
                  Fetch.metafieldsSet
                    [ {| Fetch.ownerId := customerId;
                         Fetch.namespace := "favorite";
                         Fetch.key := "favorite_products";
                         Fetch.type := "multi_line_text_field";
                         Fetch.value := one_per_line remaining |} ]
              end
              = RemoveMetafields.mutation customerId existingMetafield remaining).
  { unfold RemoveMetafields.mutation. rewrite WireFacts.encode_one_per_line.
    now destruct remaining. }
  assert (Y : match remaining with [] => true | _ :: _ => false end
              = (length remaining =? 0)%nat) by now destruct remaining.
  rewrite X, Y. subst current remaining.
  destruct request as [method json]; simpl in J; subst json.
  destruct body as [cid shop mfs ph]; simpl in C, Ph; subst cid ph.
  remember (run (action api_remove_metafields _) w) as r eqn:Er.
  exec_handler Er; subst r; simpl in T; try discriminate T.
  all: injection T as <- <-; simpl in O;
    repeat (progress (tidy_up; use_equations)).
  all: try (unfold accessDeniedError in *; congruence).
  all: simpl; unfold_negb; try congruence.
  all: split; [reflexivity|].
  all: split; [do 2 eexists; split; [reflexivity|]; split; [reflexivity|]|].
  all: try discriminate.
  all: try (intros z [<-|[]]; reflexivity).
  all: try (intros z []).
  all: intros _; split; reflexivity.
Qed.

Lemma remove_present_handle_witness :
  let request := Sample.remove (Some Sample.customer) (Some "b") (Some "demo") in
  let field := Sample.stored "gid://shopify/Metafield/9" (Sample.lines ["a"; "b"; "c"]) in
  let w := Sample.world [Sample.ok_json (Sample.field_result (Some field));
                         Sample.ok_json (Sample.set_result [field]);
                         Sample.ok_json (Sample.field_result (Some field))] in
  let r := run (action api_remove_metafields request) w in
  (exists y rest',
     trace r = y :: rest'
     /\ map (fun z => Fetch.operation (Fetch.request z)) rest'
        = [ Fetch.metafieldsSet
              [ {| Fetch.ownerId := Sample.customer;
                   Fetch.namespace := "favorite";
                   Fetch.key := "favorite_products";
                   Fetch.type := "multi_line_text_field";
                   Fetch.value := String "a" (String Js.LF "c") |} ];
            Fetch.verifyQuery Sample.customer "favorite" ])
  /\ remainingFavorites (Http.body (response r)) = Some ["a"; "c"]
  /\ deleted (Http.body (response r)) = Some false.
Proof.
  intros request field w r.
  destruct (remove_present_handle (P := scripted)
       request
       {| Req.customerId := Some Sample.customer; Req.shop := Some "demo";
          Req.metafields := None; Req.productHandle := Some "b" |}
       Sample.customer "b" w
       {| Fetch.request :=
            {| Fetch.url := graphqlUrl (shopDomain "demo");
               Fetch.accessToken := "shpat_token";
               Fetch.operation := Fetch.getMetafieldQuery Sample.customer "favorite" |};
          Fetch.outcome := Sample.ok_json (Sample.field_result (Some field)) |}
       _
       {| Fetch.status := 200; Fetch.statusText := "OK";
          Fetch.text := Normal ""; Fetch.json := Normal (Sample.field_result (Some field)) |}
       (Sample.field_result (Some field)) field
       eq_refl eq_refl eq_refl eq_refl eq_refl eq_refl eq_refl eq_refl eq_refl
       ltac:(simpl; tauto))
    as [_ [_ [_ [_ [[y [rest' [R [Op _]]]] S]]]]].
  split.
  - eexists. eexists. split; [reflexivity|reflexivity].
  - exact (S eq_refl).
Defined.

(** C7, as stated, fails: when the field is absent the target handle is
    absent from the decoded list, which is empty, and the not-found
    response carries no list. *)
Lemma absent_field_has_no_list :
  let request := Sample.remove (Some Sample.customer) (Some "a") (Some "demo") in
  let result := Sample.field_result None in
  let r := run (action api_remove_metafields request)
               (Sample.world [Sample.ok_json result]) in
  ~ In "a" (decoded (Gql.data_customer_metafield result))
  /\ Http.status (response r) = 404
  /\ Http.body (response r)
     = Http.NotFound "No favorite products found for this customer"
                     Sample.customer "a" None
  /\ currentFavorites (Http.body (response r)) = None
  /\ currentFavorites (Http.body (response r))
     <> Some (decoded (Gql.data_customer_metafield result)).
Proof. repeat split; try discriminate. intros []. Qed.

(** C7, amended: for a REMOVE whose target handle is not in the decoded
    current list, the answer is `success: false` with HTTP 404 and the read
    is the only call to the store: no mutation is issued. The response
    carries the decoded current list when the field exists with a value
    that is not empty; when the field is absent or its value is empty the
    response is the other not-found response, which carries no list. *)
Theorem remove_absent_handle {W : Type} {P : Platform W}
    (request : Req.t) (body : Req.Body) (customerId productHandle : string) (w : W)
    (x : Fetch.Exchange) (rest : Trace) (r0 : Fetch.Response) (result : Gql.Result) :
  Req.json request = Req.Object body ->
  Req.customerId body = Some customerId ->
  Req.productHandle body = Some productHandle ->
  trace (run (action api_remove_metafields request) w) = x :: rest ->
  Fetch.outcome x = Normal r0 ->
  Fetch.json r0 = Normal result ->
  accessDeniedError (Gql.errors result) = None ->
  ~ In productHandle (decoded (Gql.data_customer_metafield result)) ->
  let r := run (action api_remove_metafields request) w in
  rest = []
  /\ Fetch.is_mutation (Fetch.operation (Fetch.request x)) = false
  /\ Http.status (response r) = 404
  /\ Http.success (Http.body (response r)) = Some false
  /\ (forall existingMetafield,
        Gql.data_customer_metafield result = Some existingMetafield ->
        Js.truthy (Gql.value existingMetafield) = true ->
        Http.body (response r)
        = Http.NotFound "Product handle not found in favorites" customerId productHandle
                        (Some (parse_lines (Gql.value existingMetafield))))
  /\ (Gql.data_customer_metafield result = None
      \/ (exists m, Gql.data_customer_metafield result = Some m
                    /\ Gql.value m = EmptyString) ->
      Http.body (response r)
      = Http.NotFound "No favorite products found for this customer"
                      customerId productHandle None).
Proof.
  intros J C Ph T O B D I r. subst r.
  destruct request as [method json]; simpl in J; subst json.
  destruct body as [cid shop mfs ph]; simpl in C, Ph; subst cid ph.
  remember (run (action api_remove_metafields _) w) as r eqn:Er.
  exec_handler Er; subst r; simpl in T; try discriminate T.
  all: injection T as <- <-; simpl in O;
    repeat (progress (tidy_up; use_equations)).
  all: try (unfold accessDeniedError in *; congruence).
  all: simpl; unfold_negb.
  all: try match goal with
           | E : Gql.data_customer_metafield _ = Some _ |- _ =>
               rewrite E in I; simpl in I
           end.
  all: try match goal with
           | E : Js.array_includes _ _ = true |- _ =>
               apply SetFacts.array_includes_In in E; contradiction
           end.
  all: repeat split.
  all: try (intros m' M' V';
            repeat match goal with
                   | E : ?t = _, A : ?t = _ |- _ => rewrite E in A
                   end;
            tidy_up; congruence).
  all: intros [A|[m' [A V']]];
    repeat match goal with
           | E : ?t = _, A : ?t = _ |- _ => rewrite E in A
           end;
    tidy_up; try reflexivity.
  all: match goal with
       | E : Js.truthy _ = true |- _ => rewrite V' in E; discriminate E
       end.
Qed.

Lemma remove_absent_handle_witness :
  let request := Sample.remove (Some Sample.customer) (Some "d") (Some "demo") in
  let field := Sample.stored "gid://shopify/Metafield/9" (Sample.lines ["a"; "b"; "c"]) in
  let w := Sample.world [Sample.ok_json (Sample.field_result (Some field))] in
  Http.body (response (run (action api_remove_metafields request) w))
  = Http.NotFound "Product handle not found in favorites" Sample.customer "d"
                  (Some ["a"; "b"; "c"]).
Proof.
  intros request field w.
  refine (proj1 (proj2 (proj2 (proj2 (proj2
    (remove_absent_handle (P := scripted)
       request
       {| Req.customerId := Some Sample.customer; Req.shop := Some "demo";
          Req.metafields := None; Req.productHandle := Some "d" |}
       Sample.customer "d" w
       {| Fetch.request :=
            {| Fetch.url := graphqlUrl (shopDomain "demo");
               Fetch.accessToken := "shpat_token";
               Fetch.operation := Fetch.getMetafieldQuery Sample.customer "favorite" |};
          Fetch.outcome := Sample.ok_json (Sample.field_result (Some field)) |}
       []
       {| Fetch.status := 200; Fetch.statusText := "OK";
          Fetch.text := Normal ""; Fetch.json := Normal (Sample.field_result (Some field)) |}
       (Sample.field_result (Some field))
       eq_refl eq_refl eq_refl eq_refl eq_refl eq_refl eq_refl _))))) field eq_refl eq_refl).
  simpl. intros [E|[E|[E|[]]]]; discriminate E.
Defined.

(** When the field is absent or its value is empty there is no list to
    decode: the answer is a 404 without `currentFavorites`, and no mutation
    is issued either. *)
Lemma remove_without_field {W : Type} {P : Platform W}
    (request : Req.t) (w : W)
    (x : Fetch.Exchange) (rest : Trace) (r0 : Fetch.Response) (result : Gql.Result) :
  trace (run (action api_remove_metafields request) w) = x :: rest ->
  Fetch.outcome x = Normal r0 ->
  Fetch.json r0 = Normal result ->
  accessDeniedError (Gql.errors result) = None ->
  Gql.data_customer_metafield result = None
  \/ (exists m, Gql.data_customer_metafield result = Some m /\ Gql.value m = EmptyString) ->
  let r := run (action api_remove_metafields request) w in
  rest = []
  /\ Http.status (response r) = 404
  /\ exists customerId productHandle,
       Http.body (response r)
       = Http.NotFound "No favorite products found for this customer"
                       customerId productHandle None.
Proof.
  intros T O B D A r. subst r.
  remember (run (action api_remove_metafields _) w) as r eqn:Er.
  exec_handler Er; subst r; simpl in T; try discriminate T.
  all: injection T as <- <-; simpl in O;
    repeat (progress (tidy_up; use_equations)).
  all: try (unfold accessDeniedError in *; congruence).
  all: simpl; unfold_negb.
  all: try (repeat split; do 2 eexists; reflexivity).
  all: destruct A as [A|[m' [A V]]]; try congruence.
  all: injection A as <-; rewrite V in *; discriminate.
Qed.

Lemma remove_without_field_witness :
  let request := Sample.remove (Some Sample.customer) (Some "a") (Some "demo") in
  let r := run (action api_remove_metafields request) ([] : Memory.Store) in
  Http.status (response r) = 404 /\ length (trace r) = 1.
Proof.
  intros request r. split; [|reflexivity].
  refine (proj1 (proj2
    (remove_without_field (P := Memory.platform) request []
       {| Fetch.request :=
            {| Fetch.url := graphqlUrl (shopDomain "demo");
               Fetch.accessToken := "shpat_token";
               Fetch.operation := Fetch.getMetafieldQuery Sample.customer "favorite" |};
          Fetch.outcome := Sample.ok_json (Sample.field_result None) |}
       []
       {| Fetch.status := 200; Fetch.statusText := "OK";
          Fetch.text := Normal ""; Fetch.json := Normal (Sample.field_result None) |}
       (Sample.field_result None)
       eq_refl eq_refl eq_refl eq_refl (or_introl eq_refl)))).
Defined.


(** ** What a successful ADD reports *)

(** A successful ADD reports the length of the current list, the length of
    the merged list, the merged list itself, and as `newFavoritesAdded` the
    number of all decoded incoming candidates. *)
Theorem add_success_report {W : Type} {P : Platform W}
    (request : Req.t) (body : Req.Body) (metafields : list Req.Metafield) (w : W)
    (x : Fetch.Exchange) (rest : Trace) (r0 : Fetch.Response) (result : Gql.Result)
    (b : Added.t) :
  Req.json request = Req.Object body ->
  Req.metafields body = Some metafields ->
  trace (run (action api_update_metafields request) w) = x :: rest ->
  Fetch.outcome x = Normal r0 ->
  Fetch.json r0 = Normal result ->
  Http.body (response (run (action api_update_metafields request) w)) = Http.AddedOk b ->
  let current := UpdateMetafields.currentFavorites (Gql.data_customer_metafield result) in
  let incoming := UpdateMetafields.allNewFavorites metafields in
  Added.existingFavoritesCount b = length current
  /\ Added.newFavoritesAdded b = length incoming
  /\ Added.totalFavoritesCount b = length (dedupe_first_seen (current ++ incoming))
  /\ Added.allFavorites b = dedupe_first_seen (current ++ incoming).
Proof.
  intros J Mf T O B S current incoming. subst current incoming.
  destruct request as [method json]; simpl in J; subst json.
  destruct body as [cid shop mfs ph]; simpl in Mf; subst mfs.
  remember (run (action api_update_metafields _) w) as r eqn:Er.
  exec_handler Er; subst r; simpl in T, S; try discriminate T; try discriminate S.
  injection T as <- <-; simpl in O.
  repeat (progress (tidy_up; use_equations)).
  injection S as <-. simpl.
  unfold UpdateMetafields.mergedFavorites. rewrite SetFacts.Set_from_dedupe.
  repeat split.
Qed.

Lemma add_success_report_witness :
  let metafields := [Sample.favorite (Req.Str (Sample.lines ["b"; "c"]))] in
  let request := Sample.add (Some Sample.customer) (Some "demo") (Some metafields) in
  let field := Sample.stored "gid://shopify/Metafield/9" (Sample.lines ["a"; "b"]) in
  let w := Sample.world [Sample.ok_json (Sample.field_result (Some field));
                         Sample.ok_json (Sample.set_result [field]);
                         Sample.ok_json (Sample.field_result (Some field))] in
  exists b,
    Http.body (response (run (action api_update_metafields request) w)) = Http.AddedOk b
    /\ Added.allFavorites b = ["a"; "b"; "c"].
Proof.
  intros metafields request field w. eexists. split; [reflexivity|].
  refine (proj2 (proj2 (proj2
    (add_success_report (P := scripted)
       request
       {| Req.customerId := Some Sample.customer; Req.shop := Some "demo";
          Req.metafields := Some metafields; Req.productHandle := None |}
       metafields w
       {| Fetch.request :=
            {| Fetch.url := graphqlUrl (shopDomain "demo");
               Fetch.accessToken := "shpat_token";
               Fetch.operation := Fetch.getMetafieldQuery Sample.customer "favorites" |};
          Fetch.outcome := Sample.ok_json (Sample.field_result (Some field)) |}
       _
       {| Fetch.status := 200; Fetch.statusText := "OK";
          Fetch.text := Normal ""; Fetch.json := Normal (Sample.field_result (Some field)) |}
       (Sample.field_result (Some field)) _
       eq_refl eq_refl eq_refl eq_refl eq_refl eq_refl)))).
Defined.

(** C9, at the failing input: with the stored list [a, b] and the incoming
    candidates [b, c], only c is net-new, and the handler reports
    `newFavoritesAdded: 2`, the number of all incoming candidates, in a
    message that speaks of 2 new favorites added to 2 for a total of 3. *)
Theorem newFavoritesAdded_counts_known_handles :
  let metafields := [Sample.favorite (Req.Str (Sample.lines ["b"; "c"]))] in
  let request := Sample.add (Some Sample.customer) (Some "demo") (Some metafields) in
  let field := Sample.stored "gid://shopify/Metafield/9" (Sample.lines ["a"; "b"]) in
  let w := Sample.world [Sample.ok_json (Sample.field_result (Some field));
                         Sample.ok_json (Sample.set_result [field]);
                         Sample.ok_json (Sample.field_result (Some field))] in
  let r := run (action api_update_metafields request) w in
  let current := UpdateMetafields.currentFavorites (Some field) in
  let incoming := UpdateMetafields.allNewFavorites metafields in
  current = ["a"; "b"]
  /\ incoming = ["b"; "c"]
  /\ net_new current incoming = ["c"]
  /\ newFavoritesAdded (Http.body (response r)) = Some 2
  /\ exists b, Http.body (response r) = Http.AddedOk b
               /\ Added.message b
                  = "Successfully added 2 new favorites to existing 2. Total: 3".
Proof. repeat split. eexists. split; reflexivity. Qed.

(** ** One namespace per ADD *)

(** Every call of an ADD, the read, the write and the verification read,
    names the namespace of the request. *)
Theorem add_uses_one_namespace {W : Type} {P : Platform W}
    (request : Req.t) (body : Req.Body) (metafields : list Req.Metafield) (w : W)
    (x : Fetch.Exchange) :
  Req.json request = Req.Object body ->
  Req.metafields body = Some metafields ->
  In x (trace (run (action api_update_metafields request) w)) ->
  namespace_of (Fetch.operation (Fetch.request x))
  = Some (UpdateMetafields.metafieldNamespace metafields).
Proof.
  intros J Mf I.
  destruct request as [method json]; simpl in J; subst json.
  destruct body as [cid shop mfs ph]; simpl in Mf; subst mfs.
  remember (run (action api_update_metafields _) w) as r eqn:Er.
  exec_handler Er; subst r; simpl in I.
  all: repeat (destruct I as [<-|I]; [reflexivity|]); contradiction I.
Qed.

Lemma add_uses_one_namespace_witness :
  let metafields :=
    [ {| Req.key := Some "favorite_products"; Req.namespace := Some "wishlist";
         Req.value := Req.Str "shoe-1" |} ] in
  let write :=
    {| Fetch.request :=
         {| Fetch.url := graphqlUrl (shopDomain "demo");
            Fetch.accessToken := "shpat_token";
            Fetch.operation :=
              Fetch.metafieldsSet
                (UpdateMetafields.variables Sample.customer "wishlist" ["shoe-1"]) |};
       Fetch.outcome := Sample.ok_json (Sample.set_result []) |} in
  namespace_of (Fetch.operation (Fetch.request write))
  = Some (UpdateMetafields.metafieldNamespace metafields).
Proof.
  intros metafields write.
  apply (add_uses_one_namespace (P := scripted)
           (Sample.add (Some Sample.customer) (Some "demo") (Some metafields))
           {| Req.customerId := Some Sample.customer; Req.shop := Some "demo";
              Req.metafields := Some metafields; Req.productHandle := None |}
           metafields
           (Sample.world [Sample.ok_json (Sample.field_result None);
                          Sample.ok_json (Sample.set_result []);
                          Sample.ok_json (Sample.field_result None)])
           write eq_refl eq_refl).
  right. left. reflexivity.
Defined.

(** ** The routes against the store that remembers *)

(** The default namespace of ADD is `favorites` and REMOVE reads `favorite`:
    a handle added without a namespace is not found by REMOVE, and one
    added under `favorite` is. *)
Theorem default_namespaces_differ :
  let add ns :=
    Sample.add (Some Sample.customer) (Some "demo")
               (Some [ {| Req.key := Some "favorite_products"; Req.namespace := ns;
                          Req.value := Req.Str "shoe-1" |} ]) in
  let remove := Sample.remove (Some Sample.customer) (Some "shoe-1") (Some "demo") in
  let added ns := run (action api_update_metafields (add ns)) ([] : Memory.Store) in
  let removed ns := run (action api_remove_metafields remove) (world_after (added ns)) in
  UpdateMetafields.metafieldNamespace [Sample.favorite (Req.Str "shoe-1")] = "favorites"
  /\ RemoveMetafields.metafieldNamespace = "favorite"
  /\ Http.success (Http.body (response (added None))) = Some true
  /\ Http.status (response (removed None)) = 404
  /\ world_after (removed None) = world_after (added None)
  /\ Http.success (Http.body (response (added (Some "favorite")))) = Some true
  /\ deleted (Http.body (response (removed (Some "favorite")))) = Some true
  /\ world_after (removed (Some "favorite")) = [].
Proof. repeat split. Qed.

(** The properties that the specification lists as tests, run against the
    store that remembers. *)
Example remove_one_of_three :
  let st : Memory.Store :=
    [ {| Memory.owner := Sample.customer; Memory.namespace := "favorite";
         Memory.value := Sample.lines ["a"; "b"; "c"] |} ] in
  let r := run (action api_remove_metafields
                  (Sample.remove (Some Sample.customer) (Some "b") (Some "demo"))) st in
  remainingFavorites (Http.body (response r)) = Some ["a"; "c"]
  /\ deleted (Http.body (response r)) = Some false
  /\ world_after r
     = [ {| Memory.owner := Sample.customer; Memory.namespace := "favorite";
            Memory.value := Sample.lines ["a"; "c"] |} ].
Proof. repeat split. Qed.

Example remove_the_last_one :
  let st : Memory.Store :=
    [ {| Memory.owner := Sample.customer; Memory.namespace := "favorite";
         Memory.value := "a" |} ] in
  let r := run (action api_remove_metafields
                  (Sample.remove (Some Sample.customer) (Some "a") (Some "demo"))) st in
  deleted (Http.body (response r)) = Some true
  /\ map (fun x => Fetch.operation (Fetch.request x)) (trace r)
     = [Fetch.getMetafieldQuery Sample.customer "favorite";
        Fetch.metafieldDelete (Memory.id_of Sample.customer "favorite");
        Fetch.verifyQuery Sample.customer "favorite"]
  /\ world_after r = [].
Proof. repeat split. Qed.

Example add_merges_in_order :
  let st : Memory.Store :=
    [ {| Memory.owner := Sample.customer; Memory.namespace := "favorites";
         Memory.value := Sample.lines ["a"; "b"] |} ] in
  let r := run (action api_update_metafields
                  (Sample.add (Some Sample.customer) (Some "demo")
                              (Some [Sample.favorite (Req.Arr ["b"; "c"])]))) st in
  Http.success (Http.body (response r)) = Some true
  /\ world_after r
     = [ {| Memory.owner := Sample.customer; Memory.namespace := "favorites";
            Memory.value := Sample.lines ["a"; "b"; "c"] |} ].
Proof. repeat split. Qed.

(** ** More on the strings *)

Module LineFacts.

Lemma append_nil_r (s : string) : (s ++ EmptyString)%string = s.
Proof. induction s as [|c s IH]; simpl; [reflexivity|now rewrite IH]. Qed.

Lemma append_assoc (a b c : string) : ((a ++ b) ++ c)%string = (a ++ b ++ c)%string.
Proof. induction a as [|x a IH]; simpl; [reflexivity|now rewrite IH]. Qed.

Lemma occurs_append c (a b : string) :
  occurs c (a ++ b)%string = occurs c a || occurs c b.
Proof.
  induction a as [|x a IH]; simpl; [reflexivity|]. now rewrite IH, orb_assoc.
Qed.

Lemma padding_no_LF (p : string) : padding p = true -> occurs Js.LF p = false.
Proof.
  induction p as [|c p IH]; simpl; [reflexivity|]. intro H0.
  apply andb_true_iff in H0 as [H1 H2]. apply andb_true_iff in H1 as [_ H1].
  apply negb_true_iff in H1. now rewrite H1, IH.
Qed.

Lemma quote_is_not_white_space (c : ascii) :
  Js.is_quote c = true -> Js.is_white_space c = false.
Proof.
  unfold Js.is_quote. intro H0. apply orb_true_iff in H0 as [E|E];
    apply Ascii.eqb_eq in E; subst; reflexivity.
Qed.

Lemma quote_is_not_LF (c : ascii) : Js.is_quote c = true -> Ascii.eqb c Js.LF = false.
Proof.
  unfold Js.is_quote. intro H0. apply orb_true_iff in H0 as [E|E];
    apply Ascii.eqb_eq in E; subst; reflexivity.
Qed.

Lemma trimStart_padding (p s : string) :
  padding p = true -> Js.trimStart (p ++ s) = Js.trimStart s.
Proof.
  induction p as [|c p IH]; simpl; [reflexivity|]. intro H0.
  apply andb_true_iff in H0 as [H1 H2]. apply andb_true_iff in H1 as [-> _]. auto.
Qed.

Lemma trimEnd_all_padding (p : string) : padding p = true -> Js.trimEnd p = EmptyString.
Proof.
  induction p as [|c p IH]; simpl; [reflexivity|]. intro H0.
  apply andb_true_iff in H0 as [H1 H2]. apply andb_true_iff in H1 as [W _].
  now rewrite (IH H2), W.
Qed.

Lemma trimEnd_padding (s p : string) :
  padding p = true -> Js.trimEnd (s ++ p) = Js.trimEnd s.
Proof.
  intro H0. induction s as [|c s IH]; simpl.
  - now apply trimEnd_all_padding.
  - now rewrite IH.
Qed.

Lemma trimStart_keeps (s : string) :
  match first_char s with
  | Some c => Js.is_white_space c = false
  | None => True
  end -> Js.trimStart s = s.
Proof. destruct s as [|c s]; simpl; [reflexivity|]. now intros ->. Qed.

Lemma trimEnd_keeps (s : string) :
  match last_char s with
  | Some c => Js.is_white_space c = false
  | None => True
  end -> Js.trimEnd s = s.
Proof.
  induction s as [|c s IH]; simpl; [reflexivity|].
  destruct s as [|d s].
  - simpl. now intros ->.
  - intro H0. now rewrite (IH H0).
Qed.

Lemma last_char_append (a b : string) :
  b <> EmptyString -> last_char (a ++ b) = last_char b.
Proof.
  intro N. induction a as [|c a IH]; simpl; [reflexivity|].
  destruct (a ++ b)%string eqn:E; [|exact IH].
  destruct a; simpl in E; [now contradiction N|discriminate].
Qed.

Lemma first_char_append (a b : string) :
  a <> EmptyString -> first_char (a ++ b) = first_char a.
Proof. destruct a; [intro N; now contradiction N|reflexivity]. Qed.

Lemma strip_trailing_mark (h : string) (c : ascii) :
  Js.is_quote c = true ->
  Js.strip_trailing_quote (h ++ String c EmptyString) = h.
Proof.
  intro Q. induction h as [|d h IH]; simpl; [now rewrite Q|].
  rewrite IH. destruct (h ++ String c EmptyString)%string eqn:E; [|reflexivity].
  destruct h; discriminate.
Qed.

(** Cleaning a well-formed line gives its handle. *)
Lemma clean_render (l : WireLine) : well_formed l = true -> clean (render l) = handle l.
Proof.
  destruct l as [b o h c a]. unfold well_formed, render. simpl. intro W.
  repeat (apply andb_true_iff in W as [W ?]).
  match goal with T : Js.truthy h = true |- _ => apply JsFacts.truthy_iff in T end.
  match goal with T : tidy h = true |- _ =>
    unfold tidy in T; apply andb_true_iff in T as [F L];
    apply negb_true_iff in F, L end.
  destruct h as [|h0 h']; [congruence|]. simpl in F.
  apply orb_false_iff in F as [Fw Fq].
  assert (Lw : match last_char (String h0 h') with
               | Some x => Js.is_white_space x = false /\ Js.is_quote x = false
               | None => True end).
  { destruct (last_char (String h0 h')); [|exact I]. simpl in L.
    now apply orb_false_iff in L. }
  set (core := (mark o ++ String h0 h' ++ mark c)%string).
  assert (R : (b ++ mark o ++ String h0 h' ++ mark c ++ a)%string = (b ++ core ++ a)%string).
  { unfold core. now rewrite !append_assoc. }
  rewrite R. unfold clean, Js.trim.
  rewrite trimStart_padding by assumption.
  assert (S1 : Js.trimStart (core ++ a) = (core ++ a)%string).
  { apply trimStart_keeps. unfold core.
    destruct o as [q|]; simpl; [now apply quote_is_not_white_space|exact Fw]. }
  rewrite S1, trimEnd_padding by assumption.
  assert (S2 : Js.trimEnd core = core).
  { apply trimEnd_keeps. unfold core.
    destruct c as [q|]; simpl mark.
    - rewrite <- append_assoc, last_char_append by discriminate. simpl.
      now apply quote_is_not_white_space.
    - rewrite append_nil_r.
      destruct o as [q|]; simpl mark.
      + change (String q EmptyString ++ String h0 h')%string with (String q (String h0 h')).
        change (last_char (String q (String h0 h'))) with (last_char (String h0 h')).
        destruct (last_char (String h0 h')); [apply Lw|exact I].
      + simpl append. destruct (last_char (String h0 h')); [apply Lw|exact I]. }
  rewrite S2. unfold core, Js.strip_quotes.
  assert (S3 : Js.strip_leading_quote (mark o ++ String h0 h' ++ mark c)
               = (String h0 h' ++ mark c)%string).
  { destruct o as [q|]; simpl.
    - match goal with Q : quote_mark (Some q) = true |- _ => simpl in Q; now rewrite Q end.
    - now rewrite Fq. }
  rewrite S3. destruct c as [q|]; simpl mark.
  - now apply strip_trailing_mark.
  - rewrite append_nil_r. apply JsFacts.strip_trailing_id.
    destruct (last_char (String h0 h')) eqn:E; simpl; [|reflexivity].
    destruct Lw as [-> ->]. reflexivity.
Qed.

Lemma render_no_LF (l : WireLine) : well_formed l = true -> occurs Js.LF (render l) = false.
Proof.
  destruct l as [b o h c a]. unfold well_formed, render. simpl. intro W.
  repeat (apply andb_true_iff in W as [W ?]).
  rewrite !occurs_append.
  rewrite (padding_no_LF b), (padding_no_LF a) by assumption.
  assert (N : occurs Js.LF h = false).
  { match goal with
    | N : negb (occurs Js.LF h) = true |- _ => now apply negb_true_iff in N
    | N : occurs Js.LF h = false |- _ => exact N
    end. }
  rewrite N.
  assert (M : forall q, quote_mark q = true -> occurs Js.LF (mark q) = false).
  { intros [q|] Q; simpl; [|reflexivity].
    rewrite (quote_is_not_LF q Q). reflexivity. }
  rewrite !M by assumption. reflexivity.
Qed.

Lemma render_truthy (l : WireLine) : well_formed l = true -> Js.truthy (render l) = true.
Proof.
  intro W. apply JsFacts.truthy_iff. intro E.
  pose proof (clean_render l W) as C. rewrite E in C. simpl in C.
  unfold well_formed in W. repeat (apply andb_true_iff in W as [W ?]).
  match goal with T : Js.truthy (handle l) = true |- _ =>
    rewrite <- C in T; discriminate T end.
Qed.

Lemma filter_truthy_clean (lines : list string) :
  filter Js.truthy (map clean (filter Js.truthy lines))
  = filter Js.truthy (map clean lines).
Proof.
  induction lines as [|a l IH]; simpl; [reflexivity|].
  destruct (Js.truthy a) eqn:T; simpl; [now rewrite IH|].
  unfold Js.truthy in T. apply negb_false_iff, String.eqb_eq in T. subst a.
  simpl. exact IH.
Qed.

End LineFacts.

(** ** The codec on well-formed lines *)

(** Decoding a value made of well-formed lines gives their handles, in
    order: white space around a line and one quote character at each end of
    it, matching or not, are taken off, and nothing else is. *)
Theorem decode_well_formed_lines (lines : list WireLine) :
  (forall l, In l lines -> well_formed l = true) ->
  UpdateMetafields.decode (Some (encode (map render lines))) = map handle lines.
Proof.
  intro W. destruct lines as [|l0 ls]; [reflexivity|].
  unfold UpdateMetafields.decode.
  change (map render (l0 :: ls)) with (render l0 :: map render ls).
  rewrite JsFacts.encode_truthy by (apply LineFacts.render_truthy, W; now left).
  change (render l0 :: map render ls) with (map render (l0 :: ls)).
  unfold parse_lines, encode, Js.LFs.
  rewrite JsFacts.split_join.
  - rewrite map_map. rewrite (map_ext_in _ handle).
    + apply JsFacts.filter_id. intros h Hh. apply in_map_iff in Hh as [l [<- Hl]].
      specialize (W l Hl). unfold well_formed in W.
      repeat (apply andb_true_iff in W as [W ?]). assumption.
    + intros l Hl. now apply LineFacts.clean_render, W.
  - discriminate.
  - apply Forall_forall. intros p Hp. apply in_map_iff in Hp as [l [<- Hl]].
    now apply LineFacts.render_no_LF, W.
Qed.

Lemma decode_well_formed_lines_witness :
  let lines :=
    [ {| before := "  "; opening := Some Js.SQ; handle := "shoe-1";
         closing := Some Js.SQ; after := "" |};
      {| before := ""; opening := Some Js.DQ; handle := "shoe-2";
         closing := Some Js.SQ; after := " " |};
      {| before := ""; opening := None; handle := "red hat";
         closing := None; after := "" |} ] in
  UpdateMetafields.decode (Some (encode (map render lines)))
  = ["shoe-1"; "shoe-2"; "red hat"].
Proof.
  intro lines. apply (decode_well_formed_lines lines).
  intros l [<-|[<-|[<-|[]]]]; reflexivity.
Defined.

(** The list of the ADD and REMOVE routes is the list of the READ-ALL route
    with every entry cleaned and the entries that cleaning empties dropped. *)
Theorem decoders_agree_up_to_cleaning (m : Gql.Metafield) :
  UpdateMetafields.currentFavorites (Some m)
  = filter Js.truthy (map clean (GetMetafields.favoriteProducts (Some m)))
  /\ length (UpdateMetafields.currentFavorites (Some m))
     <= length (GetMetafields.favoriteProducts (Some m)).
Proof.
  assert (E : UpdateMetafields.currentFavorites (Some m)
              = filter Js.truthy (map clean (GetMetafields.favoriteProducts (Some m)))).
  { unfold UpdateMetafields.currentFavorites, UpdateMetafields.decode,
      GetMetafields.favoriteProducts. simpl.
    destruct (Js.truthy (Gql.value m)); [|reflexivity].
    unfold parse_lines. now rewrite LineFacts.filter_truthy_clean. }
  split; [exact E|]. rewrite E.
  etransitivity; [apply filter_length_le|]. now rewrite length_map.
Qed.

(** The READ-ALL route reads back exactly what was encoded, for any handles
    that are not empty and hold no line feed, quoted and padded ones
    included. *)
Theorem read_all_round_trip (m : Gql.Metafield) (handles : list string) :
  (forall h, In h handles -> h <> EmptyString /\ occurs Js.LF h = false) ->
  Gql.value m = encode handles ->
  GetMetafields.favoriteProducts (Some m) = handles.
Proof.
  intros H0 V. unfold GetMetafields.favoriteProducts. rewrite V.
  destruct handles as [|h l]; [reflexivity|].
  rewrite JsFacts.encode_truthy by (apply JsFacts.truthy_iff, H0; now left).
  unfold encode, Js.LFs. rewrite JsFacts.split_join.
  - apply JsFacts.filter_id. intros k Hk. now apply JsFacts.truthy_iff, H0.
  - discriminate.
  - apply Forall_forall. intros k Hk. now apply H0.
Qed.

Lemma read_all_round_trip_witness :
  GetMetafields.favoriteProducts
    (Some (Sample.stored "gid://shopify/Metafield/9" (encode ["'shoe-1'"; " shoe-2"])))
  = ["'shoe-1'"; " shoe-2"].
Proof.
  apply (read_all_round_trip
           (Sample.stored "gid://shopify/Metafield/9" (encode ["'shoe-1'"; " shoe-2"]))
           ["'shoe-1'"; " shoe-2"]); [|reflexivity].
  intros h [<-|[<-|[]]]; split; (discriminate || reflexivity).
Defined.

(** ** The merge and the removal together *)

Module MergeFacts.

Lemma dedupe_NoDup_id (l : list string) : NoDup l -> dedupe_first_seen l = l.
Proof.
  induction 1 as [|x l N _ IH]; simpl; [reflexivity|].
  rewrite IH. f_equal. apply JsFacts.filter_id. intros y Hy.
  destruct (y =? x) eqn:E; [|reflexivity].
  apply String.eqb_eq in E. subst. contradiction.
Qed.

Lemma filter_none {A : Type} (p : A -> bool) (l : list A) :
  (forall x, In x l -> p x = false) -> filter p l = [].
Proof.
  induction l as [|a l IH]; simpl; intro H0; [reflexivity|].
  rewrite (H0 a) by now left. apply IH. intros x Hx. apply H0. now right.
Qed.

Lemma merged_extends (current incoming : list string) :
  NoDup current ->
  UpdateMetafields.mergedFavorites current incoming
  = current ++ dedupe_first_seen (net_new current incoming).
Proof.
  intro N. unfold UpdateMetafields.mergedFavorites, net_new.
  rewrite SetFacts.Set_from_app, SetFacts.Set_from_dedupe, (dedupe_NoDup_id _ N).
  reflexivity.
Qed.

Lemma merged_NoDup (current incoming : list string) :
  NoDup (UpdateMetafields.mergedFavorites current incoming).
Proof.
  unfold UpdateMetafields.mergedFavorites. rewrite SetFacts.Set_from_dedupe.
  apply SetFacts.dedupe_NoDup.
Qed.

Lemma merged_In (current incoming : list string) (h : string) :
  In h (UpdateMetafields.mergedFavorites current incoming)
  <-> In h current \/ In h incoming.
Proof.
  unfold UpdateMetafields.mergedFavorites.
  now rewrite SetFacts.Set_from_dedupe, SetFacts.dedupe_In, in_app_iff.
Qed.

Lemma updated_length (l : list string) (h : string) :
  length (RemoveMetafields.updatedFavorites l h) + count_occ string_dec l h = length l.
Proof.
  unfold RemoveMetafields.updatedFavorites.
  induction l as [|k l IH]; simpl; [reflexivity|].
  destruct (k =? h) eqn:E; simpl.
  - apply String.eqb_eq in E. subst k.
    destruct (string_dec h h); [lia|congruence].
  - apply String.eqb_neq in E. destruct (string_dec k h); [congruence|lia].
Qed.

End MergeFacts.

(** When the current list repeats no handle, the merged list is the current
    list followed by the net-new candidates, each once: no stored handle
    moves or goes, and the list grows by the number of distinct net-new
    candidates. *)
Theorem merge_extends_current (current incoming : list string) :
  NoDup current ->
  UpdateMetafields.mergedFavorites current incoming
  = current ++ dedupe_first_seen (net_new current incoming)
  /\ length (UpdateMetafields.mergedFavorites current incoming)
     = length current + length (dedupe_first_seen (net_new current incoming)).
Proof.
  intro N. rewrite (MergeFacts.merged_extends _ _ N). split; [reflexivity|].
  apply length_app.
Qed.

Lemma merge_extends_current_witness :
  UpdateMetafields.mergedFavorites ["a"; "b"] ["c"; "b"; "c"; "d"]
  = ["a"; "b"] ++ dedupe_first_seen (net_new ["a"; "b"] ["c"; "b"; "c"; "d"]).
Proof.
  apply (merge_extends_current ["a"; "b"] ["c"; "b"; "c"; "d"]).
  repeat constructor; simpl; intuition discriminate.
Defined.

(** Merging the same candidates a second time changes nothing. *)
Theorem merge_is_idempotent (current incoming : list string) :
  UpdateMetafields.mergedFavorites
    (UpdateMetafields.mergedFavorites current incoming) incoming
  = UpdateMetafields.mergedFavorites current incoming.
Proof.
  rewrite (MergeFacts.merged_extends _ incoming (MergeFacts.merged_NoDup current incoming)).
  unfold net_new. rewrite MergeFacts.filter_none; [apply app_nil_r|].
  intros h Hh. apply negb_false_iff, SetFacts.array_includes_In, MergeFacts.merged_In.
  now right.
Qed.

(** Removing a handle that has just been merged into a list that did not
    hold it, and repeats no handle, gives the list back. *)
Theorem add_then_remove_restores (current : list string) (h : string) :
  NoDup current ->
  ~ In h current ->
  RemoveMetafields.updatedFavorites (UpdateMetafields.mergedFavorites current [h]) h
  = current.
Proof.
  intros N I. rewrite (MergeFacts.merged_extends _ _ N).
  unfold net_new. simpl.
  assert (A : Js.array_includes current h = false).
  { apply not_true_is_false. now rewrite SetFacts.array_includes_In. }
  rewrite A. simpl. unfold RemoveMetafields.updatedFavorites.
  rewrite filter_app. simpl. rewrite String.eqb_refl. simpl. rewrite app_nil_r.
  apply JsFacts.filter_id. intros k Hk.
  destruct (k =? h) eqn:E; [|reflexivity].
  apply String.eqb_eq in E. subst. contradiction.
Qed.

Lemma add_then_remove_restores_witness :
  RemoveMetafields.updatedFavorites
    (UpdateMetafields.mergedFavorites ["a"; "b"] ["c"]) "c"
  = ["a"; "b"].
Proof.
  apply (add_then_remove_restores ["a"; "b"] "c").
  - repeat constructor; simpl; intuition discriminate.
  - simpl. intuition discriminate.
Defined.

(** ** The calls of ADD and REMOVE *)


(** Every call of an ADD or a REMOVE goes to the GraphQL endpoint of the
    shop of the request and carries the access token of the first session
    that the session storage gave for that shop. *)
Theorem calls_go_to_the_shop {W : Type} {P : Platform W}
    (route : Route) (request : Req.t) (body : Req.Body) (shop : string)
    (session : Session) (more : list Session) (w w1 : W) (x : Fetch.Exchange) :
  Req.json request = Req.Object body ->
  Req.shop body = Some shop ->
  findSessionsByShop (shopDomain shop) w = (Normal (Some (session :: more)), w1) ->
  In x (trace (run (action route request) w)) ->
  Fetch.url (Fetch.request x) = graphqlUrl (shopDomain shop)
  /\ Fetch.accessToken (Fetch.request x) = accessToken session.
Proof.
  intros J S F I.
  destruct request as [method json]; simpl in J; subst json.
  destruct body as [cid shop' mfs ph]; simpl in S; subst shop'.
  remember (run (action route _) w) as r eqn:Er.
  destruct route; exec_handler Er; subst r; simpl in I; try contradiction I.
  all: injection F as ? ? ?; subst.
  all: repeat (destruct I as [<-|I]; [split; reflexivity|]); contradiction I.
Qed.

Lemma calls_go_to_the_shop_witness :
  let request :=
    Sample.add (Some Sample.customer) (Some "demo")
               (Some [Sample.favorite (Req.Str "shoe-1")]) in
  let w := Sample.world [Sample.ok_json (Sample.field_result None);
                         Sample.ok_json (Sample.set_result []);
                         Sample.ok_json (Sample.field_result None)] in
  let write :=
    {| Fetch.request :=
         {| Fetch.url := "https://demo.myshopify.com/admin/api/2024-01/graphql.json";
            Fetch.accessToken := "shpat_token";
            Fetch.operation :=
              Fetch.metafieldsSet
                (UpdateMetafields.variables Sample.customer "favorites" ["shoe-1"]) |};
       Fetch.outcome := Sample.ok_json (Sample.set_result []) |} in
  Fetch.url (Fetch.request write) = graphqlUrl (shopDomain "demo")
  /\ Fetch.accessToken (Fetch.request write) = accessToken Sample.session.
Proof.
  intros request w write.
  apply (calls_go_to_the_shop (P := scripted) api_update_metafields request
           {| Req.customerId := Some Sample.customer; Req.shop := Some "demo";
              Req.metafields := Some [Sample.favorite (Req.Str "shoe-1")];
              Req.productHandle := None |}
           "demo" Sample.session [] w w write eq_refl eq_refl eq_refl).
  right. left. reflexivity.
Defined.

(** Whatever the store answers, a handler calls it at most three times, in
    the order read, write, verification read; the write of an ADD is always
    a `metafieldsSet`, never a delete, and a REMOVE makes one write, a set or
    a delete. *)
Theorem calls_are_read_write_verify {W : Type} {P : Platform W}
    (route : Route) (request : Req.t) (w : W) :
  call_order route (trace (run (action route request) w)) = true.
Proof.
  remember (run (action route request) w) as r eqn:Er.
  destruct route; exec_handler Er; subst r; try reflexivity.
  all: unfold call_order; simpl; unfold RemoveMetafields.mutation;
    destruct (Nat.eqb _ _); reflexivity.
Qed.

(** The status of a response tells its outcome: `success` is true exactly
    when the status is 200, it is absent exactly at the 204 of an OPTIONS
    preflight, and the only other statuses are 400, 403, 404 and 500, of
    which an ADD never answers 404. *)
Theorem status_tells_success {W : Type} {P : Platform W}
    (route : Route) (request : Req.t) (w : W) :
  let r := response (run (action route request) w) in
  (Http.success (Http.body r) = Some true <-> Http.status r = 200)
  /\ (Http.success (Http.body r) = None <-> Http.status r = 204)
  /\ (Http.status r = 204 <-> Req.method request = "OPTIONS")
  /\ In (Http.status r) [200; 204; 400; 403; 404; 500]
  /\ (route = api_update_metafields -> Http.status r <> 404).
Proof.
  intro r. subst r.
  remember (run (action route request) w) as r eqn:Er.
  destruct route; exec_handler Er; subst r; simpl.
  all: repeat match goal with
              | E : (_ =? _) = true |- _ => apply String.eqb_eq in E
              | E : (_ =? _) = false |- _ => apply String.eqb_neq in E
              end.
  all: repeat split; try (intro; discriminate); try (intro; assumption);
    try (intro; congruence); try (simpl; tauto); try reflexivity.
Qed.

(** ** Failures before and at the write *)

(** Without a session for the shop, because the session storage rejected or
    gave none, a handler answers with HTTP 500 and never calls the store;
    when the storage gave none the error names the shop domain. *)
Theorem no_session_no_call {W : Type} {P : Platform W}
    (route : Route) (request : Req.t) (body : Req.Body) (shop : string) (w : W) :
  Req.method request <> "OPTIONS" ->
  Req.json request = Req.Object body ->
  Req.shop body = Some shop ->
  no_session (fst (findSessionsByShop (shopDomain shop) w)) = true ->
  let r := run (action route request) w in
  trace r = []
  /\ Http.status (response r) = 500
  /\ Http.success (Http.body (response r)) = Some false
  /\ (missing_required_field route body = false ->
      (exists sessions, fst (findSessionsByShop (shopDomain shop) w) = Normal sessions) ->
      Http.body (response r)
      = Http.Failure ("No active session found for shop: " ++ shopDomain shop)).
Proof.
  intros O J S N r. subst r. apply String.eqb_neq in O.
  destruct request as [method json]; simpl in J, O; subst json.
  destruct body as [cid shop' mfs ph]; simpl in S; subst shop'.
  remember (run (action route _) w) as r eqn:Er.
  destruct route; exec_handler Er; subst r; simpl in *; try congruence.
  all: repeat match goal with
              | E : findSessionsByShop _ _ = _ |- _ => rewrite E in *; clear E
              end; simpl in *; try discriminate.
  all: repeat split; try (intros M [ss E]; try discriminate; reflexivity).
  all: unfold absent; simpl;
    repeat match goal with E : Js.truthy _ = _ |- _ => rewrite E end;
    simpl; intros; try discriminate; try reflexivity.
  all: match goal with
       | X : exists _, _ |- _ => destruct X as [? X]; discriminate X
       end.
Qed.

Lemma no_session_no_call_witness :
  let request := Sample.remove (Some Sample.customer) (Some "a") (Some "demo") in
  let w := {| sessions := Normal (Some []); answers := [] |} in
  trace (run (action api_remove_metafields request) w) = [].
Proof.
  intros request w.
  refine (proj1 (no_session_no_call (P := scripted) api_remove_metafields request
                   {| Req.customerId := Some Sample.customer; Req.shop := Some "demo";
                      Req.metafields := None; Req.productHandle := Some "a" |}
                   "demo" w _ eq_refl eq_refl eq_refl)).
  discriminate.
Defined.

(** When the read is rejected or its body does not parse, the handler
    answers with HTTP 500 and calls the store no more: nothing is written. *)
Theorem failed_read_stops {W : Type} {P : Platform W}
    (route : Route) (request : Req.t) (w : W) (x : Fetch.Exchange) (rest : Trace) :
  trace (run (action route request) w) = x :: rest ->
  parsed_body x = None ->
  rest = []
  /\ Http.status (response (run (action route request) w)) = 500
  /\ Http.success (Http.body (response (run (action route request) w))) = Some false.
Proof.
  intros T B.
  remember (run (action route request) w) as r eqn:Er.
  destruct route; exec_handler Er; subst r; simpl in T; try discriminate T.
  all: injection T as <- <-; unfold parsed_body in B; simpl in B;
    use_equations; try discriminate B.
  all: repeat split.
Qed.

Lemma failed_read_stops_witness :
  let request := Sample.remove (Some Sample.customer) (Some "a") (Some "demo") in
  let w := Sample.world [] in
  Http.status (response (run (action api_remove_metafields request) w)) = 500.
Proof.
  intros request w.
  exact (proj1 (proj2 (failed_read_stops (P := scripted) api_remove_metafields request w
           {| Fetch.request :=
                {| Fetch.url := graphqlUrl (shopDomain "demo");
                   Fetch.accessToken := "shpat_token";
                   Fetch.operation := Fetch.getMetafieldQuery Sample.customer "favorite" |};
              Fetch.outcome := Throw {| exn_name := "TypeError"; exn_message := "fetch failed" |} |}
           [] eq_refl eq_refl))).
Defined.

(** The top-level errors of a write that hold no access-policy error are
    passed through as they are, with HTTP 400, an empty list included, and no
    verification read follows. *)
Theorem store_errors_pass_through {W : Type} {P : Platform W}
    (route : Route) (request : Req.t) (w : W)
    (pre post : Trace) (y : Fetch.Exchange) (result : Gql.Result)
    (errors : list Gql.Error) :
  trace (run (action route request) w) = pre ++ y :: post ->
  written y = Some result ->
  Gql.errors result = Some errors ->
  find is_access_denied errors = None ->
  post = []
  /\ response (run (action route request) w) = Http.json (Http.Errors errors) 400.
Proof.
  intros T Wr Er' F.
  remember (run (action route request) w) as r eqn:Er.
  destruct route; exec_handler Er; subst r; simpl in T; trace_cases T.
  all: unfold written in Wr; simpl in Wr; try discriminate Wr.
  all: try (unfold RemoveMetafields.mutation in Wr;
            destruct (Nat.eqb _ _) in Wr; simpl in Wr).
  all: unfold_negb; use_equations; simpl in *; try discriminate.
  all: repeat (progress (tidy_up; use_equations)); try discriminate.
  all: split; reflexivity.
Qed.

Lemma store_errors_pass_through_witness :
  let request :=
    Sample.add (Some Sample.customer) (Some "demo")
               (Some [Sample.favorite (Req.Str "shoe-1")]) in
  let w := Sample.world [Sample.ok_json (Sample.field_result None);
                         Sample.ok_json (Sample.errors_result [])] in
  response (run (action api_update_metafields request) w)
  = Http.json (Http.Errors []) 400.
Proof.
  intros request w.
  exact (proj2 (store_errors_pass_through (P := scripted)
           api_update_metafields request w
           [ {| Fetch.request :=
                  {| Fetch.url := graphqlUrl (shopDomain "demo");
                     Fetch.accessToken := "shpat_token";
                     Fetch.operation :=
                       Fetch.getMetafieldQuery Sample.customer "favorites" |};
                Fetch.outcome := Sample.ok_json (Sample.field_result None) |} ]
           []
           {| Fetch.request :=
                {| Fetch.url := graphqlUrl (shopDomain "demo");
                   Fetch.accessToken := "shpat_token";
                   Fetch.operation :=
                     Fetch.metafieldsSet
                       (UpdateMetafields.variables Sample.customer "favorites"
                                                   ["shoe-1"]) |};
              Fetch.outcome := Sample.ok_json (Sample.errors_result []) |}
           (Sample.errors_result []) [] eq_refl eq_refl eq_refl eq_refl)).
Defined.

(** The user errors that the store attaches to the result of a write are
    reported as a list, all of them, with HTTP 400, and no verification read
    follows. *)
Theorem user_errors_are_reported {W : Type} {P : Platform W}
    (route : Route) (request : Req.t) (w : W)
    (pre post : Trace) (y : Fetch.Exchange) (result : Gql.Result) :
  trace (run (action route request) w) = pre ++ y :: post ->
  written y = Some result ->
  Gql.errors result = None ->
  write_userErrors route result <> [] ->
  post = []
  /\ response (run (action route request) w)
     = Http.json (Http.UserErrors (write_userErrors route result)) 400.
Proof.
  intros T Wr Er' U.
  remember (run (action route request) w) as r eqn:Er.
  destruct route; exec_handler Er; subst r; simpl in T; trace_cases T.
  all: unfold written in Wr; simpl in Wr; try discriminate Wr.
  all: try (unfold RemoveMetafields.mutation in Wr;
            destruct (Nat.eqb _ _) in Wr; simpl in Wr).
  all: unfold_negb; use_equations; simpl in *; try discriminate.
  all: repeat (progress (tidy_up; use_equations)); try discriminate.
  all: try (split; reflexivity).
  all: match goal with
       | E : (0 <? length ?l)%nat = false |- _ =>
           apply Nat.ltb_ge in E; destruct l; [now contradiction U|simpl in E; lia]
       end.
Qed.

Lemma user_errors_are_reported_witness :
  let invalid := {| Gql.field := Some ["metafields"; "0"; "ownerId"];
                    Gql.ue_message := "Owner does not exist." |} in
  let result :=
    {| Gql.errors := None;
       Gql.data := Some {| Gql.customer := None;
                           Gql.metafieldsSet :=
                             Some {| Gql.metafields := Some [];
                                     Gql.set_userErrors := Some [invalid] |};
                           Gql.metafieldDelete := None |} |} in
  let request :=
    Sample.add (Some Sample.customer) (Some "demo")
               (Some [Sample.favorite (Req.Str "shoe-1")]) in
  let w := Sample.world [Sample.ok_json (Sample.field_result None);
                         Sample.ok_json result] in
  response (run (action api_update_metafields request) w)
  = Http.json (Http.UserErrors [invalid]) 400.
Proof.
  intros invalid result request w.
  refine (proj2 (user_errors_are_reported (P := scripted)
           api_update_metafields request w
           [ {| Fetch.request :=
                  {| Fetch.url := graphqlUrl (shopDomain "demo");
                     Fetch.accessToken := "shpat_token";
                     Fetch.operation :=
                       Fetch.getMetafieldQuery Sample.customer "favorites" |};
                Fetch.outcome := Sample.ok_json (Sample.field_result None) |} ]
           []
           {| Fetch.request :=
                {| Fetch.url := graphqlUrl (shopDomain "demo");
                   Fetch.accessToken := "shpat_token";
                   Fetch.operation :=
                     Fetch.metafieldsSet
                       (UpdateMetafields.variables Sample.customer "favorites"
                                                   ["shoe-1"]) |};
              Fetch.outcome := Sample.ok_json result |}
           result eq_refl eq_refl eq_refl _)).
  discriminate.
Defined.

(** A write that is rejected, or answered with a status that is not OK, or
    with a body that does not parse, is answered with HTTP 500 and the
    message of what was thrown (for a status that is not OK: `GraphQL request
    failed:` with the status and its text), and no verification read
    follows. *)
Theorem failed_write_is_internal_error {W : Type} {P : Platform W}
    (route : Route) (request : Req.t) (w : W)
    (pre post : Trace) (y : Fetch.Exchange) (e : Exn) :
  trace (run (action route request) w) = pre ++ y :: post ->
  write_exception y = Some e ->
  post = []
  /\ response (run (action route request) w) = internal_error e.
Proof.
  intros T Wr.
  remember (run (action route request) w) as r eqn:Er.
  destruct route; exec_handler Er; subst r; simpl in T; trace_cases T.
  all: unfold write_exception in Wr; simpl in Wr; try discriminate Wr.
  all: try (unfold RemoveMetafields.mutation in Wr;
            destruct (Nat.eqb _ _) in Wr; simpl in Wr).
  all: unfold_negb; use_equations; simpl in *; try discriminate.
  all: repeat (progress (tidy_up; use_equations)); try discriminate.
  all: split; reflexivity.
Qed.

Lemma failed_write_is_internal_error_witness :
  let request :=
    Sample.add (Some Sample.customer) (Some "demo")
               (Some [Sample.favorite (Req.Str "shoe-1")]) in
  let bad_gateway : Completion Fetch.Response :=
    Normal {| Fetch.status := 502; Fetch.statusText := "Bad Gateway";
              Fetch.text := Normal "<html>"; Fetch.json := Throw (Error "Unexpected token") |} in
  let w := Sample.world [Sample.ok_json (Sample.field_result None); bad_gateway] in
  response (run (action api_update_metafields request) w)
  = Http.json (Http.Failure "GraphQL request failed: 502 Bad Gateway") 500.
Proof.
  intros request bad_gateway w.
  exact (proj2 (failed_write_is_internal_error (P := scripted)
           api_update_metafields request w
           [ {| Fetch.request :=
                  {| Fetch.url := graphqlUrl (shopDomain "demo");
                     Fetch.accessToken := "shpat_token";
                     Fetch.operation :=
                       Fetch.getMetafieldQuery Sample.customer "favorites" |};
                Fetch.outcome := Sample.ok_json (Sample.field_result None) |} ]
           []
           {| Fetch.request :=
                {| Fetch.url := graphqlUrl (shopDomain "demo");
                   Fetch.accessToken := "shpat_token";
                   Fetch.operation :=
                     Fetch.metafieldsSet
                       (UpdateMetafields.variables Sample.customer "favorites"
                                                   ["shoe-1"]) |};
              Fetch.outcome := bad_gateway |}
           (Error "GraphQL request failed: 502 Bad Gateway") eq_refl eq_refl)).
Defined.

(** ** What ADD and REMOVE write and report *)

Module WriteFacts.

Lemma newValues_truthy (metafield : Req.Metafield) (h : string) :
  In h (UpdateMetafields.newValues metafield) -> Js.truthy h = true.
Proof.
  unfold UpdateMetafields.newValues.
  destruct (is_favorite_products (Req.key metafield)
            && UpdateMetafields.value_truthy (Req.value metafield));
    [|contradiction].
  destruct (Req.value metafield); [contradiction|..]; intro I.
  - now apply JsFacts.parse_lines_elements in I.
  - now apply filter_In in I.
  - now apply filter_In in I.
Qed.

Lemma allNewFavorites_truthy (metafields : list Req.Metafield) (h : string) :
  In h (UpdateMetafields.allNewFavorites metafields) -> Js.truthy h = true.
Proof.
  unfold UpdateMetafields.allNewFavorites. rewrite in_flat_map.
  intros [m [_ I]]. now apply newValues_truthy in I.
Qed.

Lemma currentFavorites_truthy (existingMetafield : option Gql.Metafield) (h : string) :
  In h (UpdateMetafields.currentFavorites existingMetafield) -> Js.truthy h = true.
Proof.
  unfold UpdateMetafields.currentFavorites, UpdateMetafields.decode.
  destruct existingMetafield as [m|]; simpl; [|contradiction].
  destruct (Js.truthy (Gql.value m)); [|contradiction].
  intro I. now apply JsFacts.parse_lines_elements in I.
Qed.

Lemma merged_value_truthy (existingMetafield : option Gql.Metafield)
    (metafields : list Req.Metafield) :
  let merged :=
    UpdateMetafields.mergedFavorites
      (UpdateMetafields.currentFavorites existingMetafield)
      (UpdateMetafields.allNewFavorites metafields) in
  (length merged =? 0)%nat = false -> encode merged <> EmptyString.
Proof.
  intros merged N. destruct merged as [|h l] eqn:E; [discriminate N|].
  apply JsFacts.truthy_iff, JsFacts.encode_truthy.
  assert (I : In h merged) by (rewrite E; now left).
  apply MergeFacts.merged_In in I as [I|I].
  - now apply currentFavorites_truthy in I.
  - now apply allNewFavorites_truthy in I.
Qed.

End WriteFacts.

(** Once the read has returned a body in the GraphQL format (its `errors`
    absent or an array) that holds no access-policy error, an ADD whose
    merged list is not empty calls `metafieldsSet` next, with one input: the
    customer as owner, the namespace of the read, the key
    `favorite_products`, the multi-line text type, and as value the merged
    list, one handle per line. *)
Theorem add_writes_merged_list {W : Type} {P : Platform W}
    (request : Req.t) (body : Req.Body) (customerId : string)
    (metafields : list Req.Metafield) (w : W)
    (x : Fetch.Exchange) (rest : Trace) (r0 : Fetch.Response) (result : Gql.Result) :
  Req.json request = Req.Object body ->
  Req.customerId body = Some customerId ->
  Req.metafields body = Some metafields ->
  trace (run (action api_update_metafields request) w) = x :: rest ->
  Fetch.outcome x = Normal r0 ->
  Fetch.json r0 = Normal result ->
  accessDeniedError (Gql.errors result) = None ->
  let merged :=
    dedupe_first_seen
      (UpdateMetafields.currentFavorites (Gql.data_customer_metafield result)
       ++ UpdateMetafields.allNewFavorites metafields) in
  merged <> [] ->
  Fetch.operation (Fetch.request x)
  = Fetch.getMetafieldQuery customerId (UpdateMetafields.metafieldNamespace metafields)
  /\ exists y rest',
       rest = y :: rest'
       /\ Fetch.operation (Fetch.request y)
          = Fetch.metafieldsSet
              [ {| Fetch.ownerId := customerId;
                   Fetch.namespace := UpdateMetafields.metafieldNamespace metafields;
                   Fetch.key := "favorite_products";
                   Fetch.type := "multi_line_text_field";
                   Fetch.value := one_per_line merged |} ].
Proof.
  intros J C Mf T O B D merged N. subst merged.
  rewrite <- SetFacts.Set_from_dedupe in *.
  destruct request as [method json]; simpl in J; subst json.
  destruct body as [cid shop mfs ph]; simpl in C, Mf; subst cid mfs.
  remember (run (action api_update_metafields _) w) as r eqn:Er.
  exec_handler Er; subst r; simpl in T; try discriminate T.
  all: injection T as <- <-; simpl in O;
    repeat (progress (tidy_up; use_equations)).
  all: try (unfold accessDeniedError in *; congruence).
  all: simpl; unfold UpdateMetafields.mergedFavorites in *.
  all: try (split; [reflexivity|do 2 eexists; split; [reflexivity|];
            simpl; unfold UpdateMetafields.variables;
            now rewrite WireFacts.encode_one_per_line]).
  all: match goal with
       | E : (length ?l =? 0)%nat = true |- _ =>
           apply Nat.eqb_eq in E; destruct l; [now contradiction N|discriminate E]
       end.
Qed.

Lemma add_writes_merged_list_witness :
  let metafields := [Sample.favorite (Req.Arr ["b"; " 'c' "])] in
  let request := Sample.add (Some Sample.customer) (Some "demo") (Some metafields) in
  let field := Sample.stored "gid://shopify/Metafield/9" (Sample.lines ["a"; "b"]) in
  let read := Sample.ok_json (Sample.field_result (Some field)) in
  let w := Sample.world [read] in
  exists y rest',
    trace (run (action api_update_metafields request) w)
    = {| Fetch.request :=
           {| Fetch.url := graphqlUrl (shopDomain "demo");
              Fetch.accessToken := "shpat_token";
              Fetch.operation := Fetch.getMetafieldQuery Sample.customer "favorites" |};
         Fetch.outcome := read |} :: y :: rest'
    /\ Fetch.operation (Fetch.request y)
       = Fetch.metafieldsSet
           (UpdateMetafields.variables Sample.customer "favorites" ["a"; "b"; "c"]).
Proof.
  intros metafields request field read w.
  destruct (add_writes_merged_list (P := scripted) request
              {| Req.customerId := Some Sample.customer; Req.shop := Some "demo";
                 Req.metafields := Some metafields; Req.productHandle := None |}
              Sample.customer metafields w
              {| Fetch.request :=
                   {| Fetch.url := graphqlUrl (shopDomain "demo");
                      Fetch.accessToken := "shpat_token";
                      Fetch.operation :=
                        Fetch.getMetafieldQuery Sample.customer "favorites" |};
                 Fetch.outcome := read |}
              _
              {| Fetch.status := 200; Fetch.statusText := "OK";
                 Fetch.text := Normal "";
                 Fetch.json := Normal (Sample.field_result (Some field)) |}
              (Sample.field_result (Some field))
              eq_refl eq_refl eq_refl eq_refl eq_refl eq_refl eq_refl)
    as [_ [y [rest' [R Op]]]].
  - discriminate.
  - exists y, rest'. split; [|exact Op].
    simpl in R. simpl. now rewrite R.
Defined.

(** An ADD never writes an empty value, and never anything but the
    `favorite_products` key as multi-line text: every `metafieldsSet` it
    calls has one input, with that key and type and a value that is not the
    empty string. *)
Theorem add_never_writes_empty {W : Type} {P : Platform W}
    (request : Req.t) (w : W) (x : Fetch.Exchange)
    (inputs : list Fetch.MetafieldsSetInput) :
  In x (trace (run (action api_update_metafields request) w)) ->
  Fetch.operation (Fetch.request x) = Fetch.metafieldsSet inputs ->
  exists input,
    inputs = [input]
    /\ Fetch.key input = "favorite_products"
    /\ Fetch.type input = "multi_line_text_field"
    /\ Fetch.value input <> EmptyString.
Proof.
  intros I Op.
  remember (run (action api_update_metafields _) w) as r eqn:Er.
  exec_handler Er; subst r; simpl in I; try contradiction I.
  all: repeat (destruct I as [<-|I]; [simpl in Op; try discriminate Op|]);
    try contradiction I.
  all: injection Op as <-; eexists; split; [reflexivity|].
  all: split; [reflexivity|split; [reflexivity|]].
  all: simpl; apply WriteFacts.merged_value_truthy; assumption.
Qed.

Lemma add_never_writes_empty_witness :
  let request :=
    Sample.add (Some Sample.customer) (Some "demo")
               (Some [Sample.favorite (Req.Str "shoe-1")]) in
  let w := Sample.world [Sample.ok_json (Sample.field_result None);
                         Sample.ok_json (Sample.set_result [])] in
  let inputs := UpdateMetafields.variables Sample.customer "favorites" ["shoe-1"] in
  exists input, inputs = [input] /\ Fetch.value input <> EmptyString.
Proof.
  intros request w inputs.
  destruct (add_never_writes_empty (P := scripted) request w
              {| Fetch.request :=
                   {| Fetch.url := graphqlUrl (shopDomain "demo");
                      Fetch.accessToken := "shpat_token";
                      Fetch.operation := Fetch.metafieldsSet inputs |};
                 Fetch.outcome := Sample.ok_json (Sample.set_result []) |}
              inputs) as [input [E [_ [_ V]]]].
  - right. left. reflexivity.
  - reflexivity.
  - exists input. now split.
Defined.

(** A successful REMOVE reports the handle it removed, the number of
    handles before and the number after, and the number after is the number
    before less the occurrences of the handle, so it is smaller. *)
Theorem remove_success_report {W : Type} {P : Platform W}
    (request : Req.t) (body : Req.Body) (productHandle : string) (w : W)
    (x : Fetch.Exchange) (rest : Trace) (r0 : Fetch.Response) (result : Gql.Result)
    (existingMetafield : Gql.Metafield) :
  Req.json request = Req.Object body ->
  Req.productHandle body = Some productHandle ->
  trace (run (action api_remove_metafields request) w) = x :: rest ->
  Fetch.outcome x = Normal r0 ->
  Fetch.json r0 = Normal result ->
  Gql.data_customer_metafield result = Some existingMetafield ->
  Http.success (Http.body (response (run (action api_remove_metafields request) w)))
  = Some true ->
  let current := parse_lines (Gql.value existingMetafield) in
  exists after,
    removal_report (Http.body (response (run (action api_remove_metafields request) w)))
    = Some (productHandle, length current, after)
    /\ after + count_occ string_dec current productHandle = length current
    /\ after < length current.
Proof.
  intros J Ph T O B F S current. subst current.
  destruct request as [method json]; simpl in J; subst json.
  destruct body as [cid shop mfs ph]; simpl in Ph; subst ph.
  remember (run (action api_remove_metafields _) w) as r eqn:Er.
  exec_handler Er; subst r; simpl in T, S; try discriminate T; try discriminate S.
  all: injection T as <- <-; simpl in O;
    repeat (progress (tidy_up; use_equations)).
  all: eexists; split; [reflexivity|].
  all: pose proof (MergeFacts.updated_length (parse_lines (Gql.value existingMetafield))
                     productHandle) as L.
  all: split; [exact L|].
  all: unfold_negb;
    match goal with
    | A : Js.array_includes _ _ = true |- _ =>
        apply SetFacts.array_includes_In in A;
        apply (count_occ_In string_dec) in A; simpl; lia
    end.
Qed.

Lemma remove_success_report_witness :
  let request := Sample.remove (Some Sample.customer) (Some "b") (Some "demo") in
  let field :=
    Sample.stored "gid://shopify/Metafield/9" (Sample.lines ["a"; "b"; "c"; "b"]) in
  let w := Sample.world [Sample.ok_json (Sample.field_result (Some field));
                         Sample.ok_json (Sample.set_result [field]);
                         Sample.ok_json (Sample.field_result (Some field))] in
  exists after,
    removal_report (Http.body (response (run (action api_remove_metafields request) w)))
    = Some ("b", 4, after)
    /\ after + 2 = 4.
Proof.
  intros request field w.
  destruct (remove_success_report (P := scripted) request
              {| Req.customerId := Some Sample.customer; Req.shop := Some "demo";
                 Req.metafields := None; Req.productHandle := Some "b" |}
              "b" w
              {| Fetch.request :=
                   {| Fetch.url := graphqlUrl (shopDomain "demo");
                      Fetch.accessToken := "shpat_token";
                      Fetch.operation :=
                        Fetch.getMetafieldQuery Sample.customer "favorite" |};
                 Fetch.outcome := Sample.ok_json (Sample.field_result (Some field)) |}
              _
              {| Fetch.status := 200; Fetch.statusText := "OK";
                 Fetch.text := Normal "";
                 Fetch.json := Normal (Sample.field_result (Some field)) |}
              (Sample.field_result (Some field)) field
              eq_refl eq_refl eq_refl eq_refl eq_refl eq_refl eq_refl)
    as [after [R [C _]]].
  exists after. split; [exact R|exact C].
Defined.

(** ** The namespaces of the two routes *)

(** Every call of a REMOVE that names a namespace names `favorite`; an ADD
    whose request names no namespace names `favorites` in every call. So the
    two routes, left to their defaults, never address the same field. *)
Theorem default_namespaces_never_meet {W : Type} {P : Platform W}
    (add remove : Req.t) (body : Req.Body) (metafields : list Req.Metafield)
    (w w' : W) (x y : Fetch.Exchange) (a b : string) :
  Req.json add = Req.Object body ->
  Req.metafields body = Some metafields ->
  names_no_namespace metafields = true ->
  In x (trace (run (action api_update_metafields add) w)) ->
  In y (trace (run (action api_remove_metafields remove) w')) ->
  namespace_of (Fetch.operation (Fetch.request x)) = Some a ->
  namespace_of (Fetch.operation (Fetch.request y)) = Some b ->
  a = "favorites" /\ b = "favorite" /\ a <> b.
Proof.
  intros J Mf N Ix Iy Na Nb.
  assert (A : a = "favorites").
  { assert (D : UpdateMetafields.metafieldNamespace metafields = "favorites").
    { unfold names_no_namespace in N. unfold UpdateMetafields.metafieldNamespace.
      destruct (find _ metafields) as [m|]; [|reflexivity].
      destruct (Req.namespace m) as [ns|]; [|reflexivity].
      apply negb_true_iff in N. now rewrite N. }
    rewrite <- D. clear Iy Nb N D.
    destruct add as [method json]; simpl in J; subst json.
    destruct body as [cid shop mfs ph]; simpl in Mf; subst mfs.
    remember (run (action api_update_metafields _) w) as r eqn:Er.
    exec_handler Er; subst r; simpl in Ix; try contradiction Ix.
    all: repeat (destruct Ix as [<-|Ix];
                 [simpl in Na; unfold UpdateMetafields.variables in Na;
                  simpl in Na; congruence|]).
    all: contradiction. }
  assert (B : b = "favorite").
  { clear Ix Na N A J Mf.
    remember (run (action api_remove_metafields _) w') as r eqn:Er.
    exec_handler Er; subst r; simpl in Iy; try contradiction Iy.
    all: repeat (destruct Iy as [<-|Iy];
                 [simpl in Nb; unfold RemoveMetafields.mutation in Nb;
                  try destruct (Nat.eqb _ _) in Nb; simpl in Nb;
                  first [discriminate Nb|injection Nb as <-; reflexivity]|]).
    all: contradiction. }
  subst. repeat split. discriminate.
Qed.

Lemma default_namespaces_never_meet_witness :
  let add :=
    Sample.add (Some Sample.customer) (Some "demo")
               (Some [Sample.favorite (Req.Str "shoe-1")]) in
  let remove := Sample.remove (Some Sample.customer) (Some "shoe-1") (Some "demo") in
  let w := Sample.world [Sample.ok_json (Sample.field_result None)] in
  let read ns :=
    {| Fetch.request :=
         {| Fetch.url := graphqlUrl (shopDomain "demo");
            Fetch.accessToken := "shpat_token";
            Fetch.operation := Fetch.getMetafieldQuery Sample.customer ns |};
       Fetch.outcome := Sample.ok_json (Sample.field_result None) |} in
  In (read "favorites") (trace (run (action api_update_metafields add) w))
  /\ In (read "favorite") (trace (run (action api_remove_metafields remove) w))
  /\ "favorites" <> "favorite".
Proof.
  intros add remove w read.
  assert (Ia : In (read "favorites") (trace (run (action api_update_metafields add) w)))
    by (left; reflexivity).
  assert (Ir : In (read "favorite") (trace (run (action api_remove_metafields remove) w)))
    by (left; reflexivity).
  split; [exact Ia|split; [exact Ir|]].
  exact (proj2 (proj2 (default_namespaces_never_meet (P := scripted) add remove
            {| Req.customerId := Some Sample.customer; Req.shop := Some "demo";
               Req.metafields := Some [Sample.favorite (Req.Str "shoe-1")];
               Req.productHandle := None |}
            [Sample.favorite (Req.Str "shoe-1")] w w
            (read "favorites") (read "favorite") "favorites" "favorite"
            eq_refl eq_refl eq_refl Ia Ir eq_refl eq_refl))).
Defined.

(** ** The READ-ALL route *)

Ltac exec_loader H :=
  unfold run, GetMetafields.loader,
    try_catch, bind, ret, throw, await, await_fetch, await_findSessionsByShop,
    required in H;
  simpl in H;
  repeat exec_step H.

(** The READ-ALL route calls the store at most once, with the query of the
    customer of the request, and never writes. *)
Theorem read_all_only_reads {W : Type} {P : Platform W}
    (params : GetMetafields.Params) (w : W) (x : Fetch.Exchange) :
  In x (trace (run (GetMetafields.loader params) w)) ->
  trace (run (GetMetafields.loader params) w) = [x]
  /\ Fetch.is_mutation (Fetch.operation (Fetch.request x)) = false
  /\ exists customerId,
       GetMetafields.customerId params = Some customerId
       /\ Fetch.operation (Fetch.request x) = Fetch.customerQuery customerId.
Proof.
  intro I. destruct params as [cid shop].
  remember (run (GetMetafields.loader _) w) as r eqn:Er.
  exec_loader Er; subst r; simpl in I; try contradiction I.
  all: destruct I as [<-|[]]; repeat split; eexists; split; reflexivity.
Qed.

Lemma read_all_only_reads_witness :
  let params := {| GetMetafields.customerId := Some Sample.customer;
                   GetMetafields.shop := Some "demo" |} in
  let w := Sample.world [Sample.ok_json (Sample.field_result None)] in
  length (trace (run (GetMetafields.loader params) w)) = 1.
Proof.
  intros params w.
  rewrite (proj1 (read_all_only_reads (P := scripted) params w
                    {| Fetch.request :=
                         {| Fetch.url := graphqlUrl (shopDomain "demo");
                            Fetch.accessToken := "shpat_token";
                            Fetch.operation := Fetch.customerQuery Sample.customer |};
                       Fetch.outcome := Sample.ok_json (Sample.field_result None) |}
                    (or_introl eq_refl))).
  reflexivity.
Defined.

(** The READ-ALL route passes the top-level errors of the store through
    with HTTP 400 whatever they are: unlike ADD and REMOVE it has no
    access-policy response, and never answers 403. *)
Theorem read_all_passes_errors_through {W : Type} {P : Platform W}
    (params : GetMetafields.Params) (w : W) (x : Fetch.Exchange)
    (r0 : Fetch.Response) (result : Gql.Result) (errors : list Gql.Error) :
  In x (trace (run (GetMetafields.loader params) w)) ->
  Fetch.outcome x = Normal r0 ->
  Fetch.ok r0 = true ->
  Fetch.json r0 = Normal result ->
  Gql.errors result = Some errors ->
  response (run (GetMetafields.loader params) w) = Http.json (Http.Errors errors) 400.
Proof.
  intros I O K B E'. destruct params as [cid shop].
  remember (run (GetMetafields.loader _) w) as r eqn:Er.
  exec_loader Er; subst r; simpl in I; try contradiction I.
  all: destruct I as [<-|[]]; simpl in O;
    repeat (progress (tidy_up; use_equations)); unfold_negb; try congruence;
    try reflexivity.
Qed.

Lemma read_all_passes_errors_through_witness :
  let denied :=
    {| Gql.code := Some "ACCESS_DENIED";
       Gql.message := "Access denied: this app is not approved for protected customer data." |} in
  let params := {| GetMetafields.customerId := Some Sample.customer;
                   GetMetafields.shop := Some "demo" |} in
  let w := Sample.world [Sample.ok_json (Sample.errors_result [denied])] in
  is_access_denied denied = true
  /\ response (run (GetMetafields.loader params) w) = Http.json (Http.Errors [denied]) 400.
Proof.
  intros denied params w. split; [reflexivity|].
  exact (read_all_passes_errors_through (P := scripted) params w
           {| Fetch.request :=
                {| Fetch.url := graphqlUrl (shopDomain "demo");
                   Fetch.accessToken := "shpat_token";
                   Fetch.operation := Fetch.customerQuery Sample.customer |};
              Fetch.outcome := Sample.ok_json (Sample.errors_result [denied]) |}
           {| Fetch.status := 200; Fetch.statusText := "OK"; Fetch.text := Normal "";
              Fetch.json := Normal (Sample.errors_result [denied]) |}
           (Sample.errors_result [denied]) [denied]
           (or_introl eq_refl) eq_refl eq_refl eq_refl eq_refl).
Defined.

(** The statuses of the READ-ALL route: 200 exactly on success, otherwise
    400, 404 or 500, and never 403; a response that is not OK, a rejected
    fetch and a missing parameter all give 500. *)
Theorem read_all_status {W : Type} {P : Platform W}
    (params : GetMetafields.Params) (w : W) :
  let r := response (run (GetMetafields.loader params) w) in
  (Http.success (Http.body r) = Some true <-> Http.status r = 200)
  /\ In (Http.status r) [200; 400; 404; 500]
  /\ (Http.status r = 404 -> Http.body r = Http.CustomerNotFound "Customer not found")
  /\ (trace (run (GetMetafields.loader params) w) = [] -> Http.status r = 500).
Proof.
  intro r. subst r. destruct params as [cid shop].
  remember (run (GetMetafields.loader _) w) as r eqn:Er.
  exec_loader Er; subst r; simpl.
  all: repeat split; try (intro; discriminate); try (intro; reflexivity);
    try (simpl; tauto).
Qed.

(** A successful READ-ALL is built from the customer of the parsed result:
    the report copies its id, email, first name and last name, lists all its
    metafields and their number, gives its favorites field and whether it
    exists, and the non-empty lines of its value; without the field the list
    is empty. *)
Theorem read_all_report {W : Type} {P : Platform W}
    (params : GetMetafields.Params) (w : W) (x : Fetch.Exchange)
    (r0 : Fetch.Response) (result : Gql.Result) (d : Diagnostic.t) :
  In x (trace (run (GetMetafields.loader params) w)) ->
  Fetch.outcome x = Normal r0 ->
  Fetch.json r0 = Normal result ->
  diagnostic (Http.body (response (run (GetMetafields.loader params) w))) = Some d ->
  exists customer,
    data_customer result = Some customer
    /\ Diagnostic.customer d
       = {| Diagnostic.id := Gql.customer_id customer;
            Diagnostic.email := Gql.email customer;
            Diagnostic.firstName := Gql.firstName customer;
            Diagnostic.lastName := Gql.lastName customer |}
    /\ Diagnostic.allMetafields d = or_empty (Gql.edges customer)
    /\ Diagnostic.totalMetafields d = length (Diagnostic.allMetafields d)
    /\ Diagnostic.favoritesMetafield d = Gql.metafield customer
    /\ (Diagnostic.favoritesExists d = true <-> Diagnostic.favoritesMetafield d <> None)
    /\ Diagnostic.favoriteProducts d
       = GetMetafields.favoriteProducts (Diagnostic.favoritesMetafield d)
    /\ (Diagnostic.favoritesExists d = false -> Diagnostic.favoriteProducts d = []).
Proof.
  intros I O B D. destruct params as [cid shop].
  remember (run (GetMetafields.loader _) w) as r eqn:Er.
  exec_loader Er; subst r; simpl in I, D; try contradiction I; try discriminate D.
  all: destruct I as [<-|[]]; simpl in O;
    repeat (progress (tidy_up; use_equations)); simpl; unfold data_customer;
    repeat match goal with
           | E : _ = _ |- _ => rewrite E
           end; simpl;
    eexists; split; [reflexivity|];
    repeat split; try (intro; discriminate); try congruence.
Qed.

Lemma read_all_report_witness :
  let field := Sample.stored "gid://shopify/Metafield/9" (Sample.lines ["a"; ""; "b"]) in
  let other := Sample.stored "gid://shopify/Metafield/7" "blue" in
  let customer :=
    {| Gql.customer_id := Some Sample.customer; Gql.email := Some "ann@example.com";
       Gql.firstName := Some "Ann"; Gql.lastName := None;
       Gql.edges := Some [other; field]; Gql.metafield := Some field |} in
  let result :=
    {| Gql.errors := None;
       Gql.data := Some {| Gql.customer := Some customer; Gql.metafieldsSet := None;
                           Gql.metafieldDelete := None |} |} in
  let params := {| GetMetafields.customerId := Some Sample.customer;
                   GetMetafields.shop := Some "demo" |} in
  let w := Sample.world [Sample.ok_json result] in
  exists d,
    diagnostic (Http.body (response (run (GetMetafields.loader params) w))) = Some d
    /\ Diagnostic.customer d
       = {| Diagnostic.id := Some Sample.customer;
            Diagnostic.email := Some "ann@example.com";
            Diagnostic.firstName := Some "Ann"; Diagnostic.lastName := None |}
    /\ Diagnostic.allMetafields d = [other; field]
    /\ Diagnostic.totalMetafields d = 2
    /\ Diagnostic.favoriteProducts d = ["a"; "b"].
Proof.
  intros field other customer result params w. eexists. split; [reflexivity|].
  match goal with
  | |- Diagnostic.customer ?d = _ /\ _ =>
      destruct (read_all_report (P := scripted) params w
                  {| Fetch.request :=
                       {| Fetch.url := graphqlUrl (shopDomain "demo");
                          Fetch.accessToken := "shpat_token";
                          Fetch.operation := Fetch.customerQuery Sample.customer |};
                     Fetch.outcome := Sample.ok_json result |}
                  {| Fetch.status := 200; Fetch.statusText := "OK";
                     Fetch.text := Normal "";
                     Fetch.json := Normal result |}
                  result d
                  (or_introl eq_refl) eq_refl eq_refl eq_refl)
        as [c [Dc [C [A [T [_ [_ [F _]]]]]]]]
  end.
  injection Dc as <-.
  split; [exact C|]. split; [exact A|]. split; [exact T|exact F].
Defined.

(** ** The `-temp` variant of the update route *)

Module TempFacts.

Lemma find_first (A : Type) (f : A -> bool) (pre post : list A) (m : A) :
  (forall x, In x pre -> f x = false) -> f m = true ->
  find f (pre ++ m :: post) = Some m.
Proof.
  intros N T. induction pre as [|p pre IH]; simpl.
  - now rewrite T.
  - rewrite (N p (or_introl eq_refl)). apply IH. intros x I. apply N. now right.
Qed.

Lemma app_cons_not_nil (A : Type) (pre post : list A) (m : A) :
  exists x l, pre ++ m :: post = x :: l.
Proof. destruct pre; simpl; eauto. Qed.

End TempFacts.

Ltac exec_temp H :=
  unfold UpdateMetafieldsTemp.respond, UpdateMetafieldsTemp.action,
    UpdateMetafieldsTemp.productHandle,
    try_catch, bind, ret, throw, required in H;
  simpl in H;
  repeat exec_step H.

(** When the `-temp` route answers 200, the body of the request had a
    customer, a shop and a non-empty array of metafields, which the report
    echoes; the handle it reports is never empty: it is the value of the
    first `favorite_products` entry without one leading and one trailing
    quote, or the word unknown. *)
Theorem temp_success_report {W : Type} (now : string) (not_a_function null_body : Exn)
    (request : UpdateMetafieldsTemp.Request) (w : W) :
  UpdateMetafieldsTemp.status
    (UpdateMetafieldsTemp.respond now not_a_function null_body request w) = 200 ->
  exists b ms p,
    UpdateMetafieldsTemp.json request = UpdateMetafieldsTemp.Object b
    /\ UpdateMetafieldsTemp.metafields b = Some ms
    /\ UpdateMetafieldsTemp.body
         (UpdateMetafieldsTemp.respond now not_a_function null_body request w)
       = UpdateMetafieldsTemp.ProcessedOk p
    /\ UpdateMetafieldsTemp.customerId b
       = Some (UpdateMetafieldsTemp.Processed.customerId p)
    /\ UpdateMetafieldsTemp.shop b = Some (UpdateMetafieldsTemp.Processed.shop p)
    /\ UpdateMetafieldsTemp.Processed.productHandle p <> ""
    /\ UpdateMetafieldsTemp.Processed.message p
       = ("Successfully processed favorite for product: "
          ++ UpdateMetafieldsTemp.Processed.productHandle p)%string
    /\ (UpdateMetafieldsTemp.Processed.productHandle p = "unknown"
        \/ exists m v,
             UpdateMetafieldsTemp.favoritesMetafield ms = Some m
             /\ UpdateMetafieldsTemp.value m = UpdateMetafieldsTemp.Str v
             /\ UpdateMetafieldsTemp.Processed.productHandle p = Js.strip_quotes v).
Proof.
  intro S. destruct request as [method [| |[cid shop mfs]]].
  all: remember (UpdateMetafieldsTemp.respond now not_a_function null_body _ w)
         as r eqn:Er.
  all: exec_temp Er; subst r; simpl in S; try discriminate S.
  all: do 3 eexists; simpl.
  all: do 5 (split; [reflexivity|]).
  all: unfold UpdateMetafieldsTemp.Processed.productHandle,
         UpdateMetafieldsTemp.Processed.message.
  all: split; [first [discriminate
                     |intro X;
                      match goal with
                      | T : Js.truthy _ = true |- _ => rewrite X in T; discriminate T
                      end]
              |split; [reflexivity|]].
  all: first [left; reflexivity
             |right; do 2 eexists; unfold UpdateMetafieldsTemp.favoritesMetafield;
              simpl;
              repeat match goal with
                     | E : is_favorite_products _ = _ |- _ => rewrite E
                     end;
              repeat split; eassumption].
Qed.

Lemma temp_success_report_witness :
  let quoted := String Js.DQ ("red-shoe" ++ String Js.DQ "") in
  let request :=
    {| UpdateMetafieldsTemp.method := "POST";
       UpdateMetafieldsTemp.json :=
         UpdateMetafieldsTemp.Object
           {| UpdateMetafieldsTemp.customerId := Some "gid://shopify/Customer/1";
              UpdateMetafieldsTemp.shop := Some "demo";
              UpdateMetafieldsTemp.metafields :=
                Some [ {| UpdateMetafieldsTemp.key := Some "favorite_products";
                          UpdateMetafieldsTemp.value :=
                            UpdateMetafieldsTemp.Str quoted |} ] |} |} in
  let type_error :=
    {| exn_name := "TypeError"; exn_message := "replace is not a function" |} in
  let null_error :=
    {| exn_name := "TypeError"; exn_message := "body is null" |} in
  exists p,
    UpdateMetafieldsTemp.body
      (UpdateMetafieldsTemp.respond "2024-01-01T00:00:00.000Z" type_error null_error request tt)
    = UpdateMetafieldsTemp.ProcessedOk p
    /\ UpdateMetafieldsTemp.Processed.productHandle p <> "".
Proof.
  intros quoted request type_error null_error.
  destruct (temp_success_report "2024-01-01T00:00:00.000Z" type_error null_error request tt eq_refl)
    as [b [ms [p [_ [_ [B [_ [_ [N _]]]]]]]]].
  exists p. split; [exact B|exact N].
Defined.

(** The `-temp` route reads the first `favorite_products` entry only: the
    entries after it never change the response. *)
Theorem temp_reads_first_entry_only {W : Type}
    (now : string) (not_a_function null_body : Exn) (method : string) (customerId shop : option string)
    (pre post : list UpdateMetafieldsTemp.Metafield) (m : UpdateMetafieldsTemp.Metafield)
    (w : W) :
  (forall x, In x pre -> is_favorite_products (UpdateMetafieldsTemp.key x) = false) ->
  is_favorite_products (UpdateMetafieldsTemp.key m) = true ->
  let request ms :=
    {| UpdateMetafieldsTemp.method := method;
       UpdateMetafieldsTemp.json :=
         UpdateMetafieldsTemp.Object
           {| UpdateMetafieldsTemp.customerId := customerId;
              UpdateMetafieldsTemp.shop := shop;
              UpdateMetafieldsTemp.metafields := Some ms |} |} in
  UpdateMetafieldsTemp.respond now not_a_function null_body (request (pre ++ m :: post)) w
  = UpdateMetafieldsTemp.respond now not_a_function null_body (request (pre ++ [m])) w.
Proof.
  intros N T request. subst request.
  unfold UpdateMetafieldsTemp.respond, UpdateMetafieldsTemp.action,
    UpdateMetafieldsTemp.productHandle, UpdateMetafieldsTemp.favoritesMetafield.
  destruct (TempFacts.app_cons_not_nil _ pre post m) as [x [l E]].
  destruct (TempFacts.app_cons_not_nil _ pre [] m) as [x' [l' E']].
  pose proof (TempFacts.find_first _ _ pre post m N T) as F.
  pose proof (TempFacts.find_first _ _ pre [] m N T) as F'.
  simpl UpdateMetafieldsTemp.json. simpl UpdateMetafieldsTemp.method.
  unfold try_catch, bind, ret, throw, required. simpl.
  rewrite E, E' in *. rewrite F, F'. reflexivity.
Qed.

Lemma temp_reads_first_entry_only_witness :
  let entry v := {| UpdateMetafieldsTemp.key := Some "favorite_products";
                    UpdateMetafieldsTemp.value := UpdateMetafieldsTemp.Str v |} in
  let other := {| UpdateMetafieldsTemp.key := Some "color";
                  UpdateMetafieldsTemp.value := UpdateMetafieldsTemp.NotAString |} in
  let type_error :=
    {| exn_name := "TypeError"; exn_message := "replace is not a function" |} in
  let null_error :=
    {| exn_name := "TypeError"; exn_message := "body is null" |} in
  let request ms :=
    {| UpdateMetafieldsTemp.method := "POST";
       UpdateMetafieldsTemp.json :=
         UpdateMetafieldsTemp.Object
           {| UpdateMetafieldsTemp.customerId := Some "gid://shopify/Customer/1";
              UpdateMetafieldsTemp.shop := Some "demo";
              UpdateMetafieldsTemp.metafields := Some ms |} |} in
  UpdateMetafieldsTemp.respond "t" type_error null_error (request [other; entry "a"; entry "b"]) tt
  = UpdateMetafieldsTemp.respond "t" type_error null_error (request [other; entry "a"]) tt.
Proof.
  intros entry other type_error null_error request.
  refine (temp_reads_first_entry_only "t" type_error null_error "POST"
            (Some "gid://shopify/Customer/1") (Some "demo")
            [other] [entry "b"] (entry "a") tt _ eq_refl).
  intros x [<-|[]]. reflexivity.
Defined.



(** ** The shop domain *)

Module DomainFacts.

Lemma prefix_refl (s : string) : String.prefix s s = true.
Proof.
  induction s as [|c s IH]; simpl; [reflexivity|].
  destruct (ascii_dec c c) as [_|N]; [exact IH|now contradiction N].
Qed.

Lemma includes_self (s : string) : Js.includes s s = true.
Proof.
  destruct s as [|c s]; [reflexivity|].
  change (String.prefix (String c s) (String c s) || Js.includes s (String c s) = true).
  now rewrite prefix_refl.
Qed.

Lemma includes_suffix (s t : string) : Js.includes (s ++ t) t = true.
Proof.
  induction s as [|c s IH]; simpl.
  - apply includes_self.
  - rewrite IH. apply orb_true_r.
Qed.

End DomainFacts.

(** The domain that the handlers derive from the `shop` of a request always
    contains `.myshopify.com`, and deriving it again from the result changes
    nothing. *)
Theorem shop_domain_is_normal (shop : string) :
  Js.includes (shopDomain shop) ".myshopify.com" = true
  /\ shopDomain (shopDomain shop) = shopDomain shop.
Proof.
  assert (I : Js.includes (shopDomain shop) ".myshopify.com" = true).
  { unfold shopDomain.
    destruct (Js.includes shop ".myshopify.com") eqn:E; [exact E|].
    apply DomainFacts.includes_suffix. }
  split; [exact I|].
  unfold shopDomain at 1. now rewrite I.
Qed.
